(** * Section views of the XAI analytics dashboard

    A shallow embedding of the data-shaping code of
    [xai_powered_analytics_dashboard.py] and of its script predecessor
    [_1.py]: the table loaded from the CSV file, the pandas operations the
    two files call on it (column selection, comparison with a label,
    boolean-mask indexing, [dropna], [pivot_table]), the four section views
    and the slider seeding of the scenario section.

    Chart drawing (seaborn, matplotlib, plotly) and page layout are not
    modelled: they receive the shaped view and draw it. *)

From Stdlib Require Import Ascii String QArith Qcanon.
From stdpp Require Import gmap strings list list_numbers fin_maps fin_sets.

Local Open Scope string_scope.

(** ** Cells, records and tables *)

(** A cell of the loaded table.  [pandas.read_csv] yields strings, finite
    numbers (int64 or float64, kept here by their exact value), the two
    float infinities, and NaN, which is how a missing field is stored. *)
Inductive value :=
  | VStr (s : string)
  | VNum (q : Qc)
  | VInf (negative : bool)
  | VNaN.

Global Instance value_eq_dec : EqDecision value.
Proof. solve_decision. Defined.

Global Instance value_countable : Countable value.
Proof.
  refine (inj_countable'
    (λ v, match v with
          | VStr s => inl (inl s)
          | VNum q => inl (inr q)
          | VInf b => inr (inl b)
          | VNaN => inr (inr ())
          end)
    (λ x, match x with
          | inl (inl s) => VStr s
          | inl (inr q) => VNum q
          | inr (inl b) => VInf b
          | inr (inr _) => VNaN
          end) _).
  by intros [].
Defined.

(** [pandas.isna] on a cell. *)
Definition isna (v : value) : bool :=
  match v with VNaN => true | _ => false end.

Definition notna (v : value) : bool := negb (isna v).

(** A record maps column names to cells. *)
Abbreviation record := (gmap string value).

(** The field [c] of a record; a field the record does not carry reads as
    missing, as [read_csv] pads short lines. *)
Definition field (r : record) (c : string) : value := default VNaN (r !! c).

(** A table: the column labels and the rows in file order, each with its
    index label (the row number given by [read_csv], kept by every later
    selection). *)
Record DataFrame := mkDataFrame {
  columns : list string;
  rows : list (nat * record)
}.

(** A column taken out of a table, or a mask computed from one. *)
Abbreviation Series A := (list (nat * A)).

Global Instance DataFrame_eq_dec : EqDecision DataFrame.
Proof. solve_decision. Defined.

(** ** Exceptions *)

Inductive exn :=
  | KeyError (keys : list string)
  | ValueError
  | OverflowError
  | TypeError
  | StreamlitAPIException.

Inductive result (A : Type) :=
  | Ok (a : A)
  | Raise (e : exn).
Arguments Ok {A} a.
Arguments Raise {A} e.

Global Instance result_ret : MRet result := λ A a, Ok a.
Global Instance result_bind : MBind result := λ A B f m,
  match m with Ok a => f a | Raise e => Raise e end.

Definition is_Ok {A} (r : result A) : Prop := ∃ a, r = Ok a.

(** ** pandas operations, on table values *)

(** The cells of column [c], each under the index label of its row. *)
Definition column_of (rs : list (nat * record)) (c : string) : Series value :=
  (λ ir : nat * record, (ir.1, field ir.2 c)) <$> rs.

(** [df[c]]: the column [c]; [KeyError] when the table has no such column. *)
Definition getitem_column (df : DataFrame) (c : string) : result (Series value) :=
  if bool_decide (c ∈ columns df)
  then Ok (column_of (rows df) c)
  else Raise (KeyError [c]).

(** [s == label], cell by cell.  Only a string cell equal to the label
    compares true; numbers and NaN compare false. *)
Definition series_eq (s : Series value) (label : string) : Series bool :=
  (λ iv : nat * value, (iv.1, bool_decide (iv.2 = VStr label))) <$> s.

(** [df[mask]]: the rows at which the mask holds [True].  The mask comes
    from a column of [df] itself, so the two run in step. *)
Fixpoint select_rows (rs : list (nat * record)) (mask : Series bool)
  : list (nat * record) :=
  match rs, mask with
  | r :: rs', (_, b) :: mask' =>
      if b then r :: select_rows rs' mask' else select_rows rs' mask'
  | _, _ => []
  end.

Definition getitem_mask (df : DataFrame) (mask : Series bool) : DataFrame :=
  mkDataFrame (columns df) (select_rows (rows df) mask).

(** The row has a value in every column of [cs]. *)
Definition complete_on (cs : list string) (r : record) : bool :=
  forallb (λ c, notna (field r c)) cs.

(** [df.dropna(subset=...)]: with [subset=None] every column is checked.
    Labels of [subset] that are not columns raise [KeyError] before any row
    is looked at; otherwise the rows with a NaN in a checked column go. *)
Definition dropna (df : DataFrame) (subset : option (list string))
  : result DataFrame :=
  let cs := default (columns df) subset in
  let absent := filter (λ c, c ∉ columns df) cs in
  if bool_decide (absent = [])
  then Ok (mkDataFrame (columns df)
             (filter (λ ir : nat * record, complete_on cs ir.2) (rows df)))
  else Raise (KeyError absent).

(** A table whose rows are labelled by the cells of one of its former
    columns, as [set_index] returns it. *)
Record IndexedFrame := mkIndexedFrame {
  icolumns : list string;
  irows : list (value * record)
}.

(** [df.set_index(key)]: the column [key] becomes the index and leaves the
    columns; [KeyError] when there is no such column. *)
Definition set_index (df : DataFrame) (key : string) : result IndexedFrame :=
  if bool_decide (key ∈ columns df)
  then Ok (mkIndexedFrame
             (filter (λ c, c ≠ key) (columns df))
             ((λ ir : nat * record, (field ir.2 key, delete key ir.2))
                <$> rows df))
  else Raise (KeyError [key]).

(** [indexed[c]]: the column [c] under the new index. *)
Definition indexed_getitem (f : IndexedFrame) (c : string)
  : result (list (value * value)) :=
  if bool_decide (c ∈ icolumns f)
  then Ok ((λ kr : value * record, (kr.1, field kr.2 c)) <$> irows f)
  else Raise (KeyError [c]).

(** ** The section view *)

(** The shaping step every section of the dashboard starts with,
    [data[data["Component"] == label].dropna(subset=requiredFields)]. *)
Definition selectSection (data : DataFrame) (label : string)
    (requiredFields : list string) : result DataFrame :=
  component ← getitem_column data "Component";
  dropna (getitem_mask data (series_eq component label)) (Some requiredFields).

(** The record carries the label [label] in its [Component] field. *)
Definition in_section (label : string) (r : record) : Prop :=
  field r "Component" = VStr label.

Global Instance in_section_dec label r : Decision (in_section label r).
Proof. unfold in_section. apply _. Defined.

(** Every row stays within the declared columns, as in any table that
    [read_csv] builds. *)
Definition well_formed (df : DataFrame) : Prop :=
  ∀ ir c, ir ∈ rows df → is_Some (ir.2 !! c) → c ∈ columns df.

(** ** Pivot tables *)

(** One row of
    [pivot_table(values=values, index=index, aggfunc='first')]: rows with a
    NaN key are left out of the grouping, ['first'] skips NaN values, and a
    key already seen keeps the value it has. *)
Definition first_step (values index : string) (t : gmap value value)
    (ir : nat * record) : gmap value value :=
  let k := field ir.2 index in
  let v := field ir.2 values in
  if isna k || isna v then t
  else match t !! k with Some _ => t | None => <[k := v]> t end.

(** The one-column table of the risk-score heatmap, keyed by the index
    labels.  A key whose values are all NaN has no row (the all-NaN rows of
    the aggregate are dropped).  pandas sorts the labels for display; the
    table is kept here as a finite map. *)
Definition pivot_table_first (df : DataFrame) (values index : string)
  : result (gmap value value) :=
  if bool_decide (values ∈ columns df) then
    if bool_decide (index ∈ columns df)
    then Ok (foldl (first_step values index) ∅ (rows df))
    else Raise (KeyError [index])
  else Raise (KeyError [values]).

(** One row of [groupby([index, columns]).size()]. *)
Definition size_step (index cols : string) (t : gmap (value * value) nat)
    (ir : nat * record) : gmap (value * value) nat :=
  let k := (field ir.2 index, field ir.2 cols) in
  if isna k.1 || isna k.2 then t
  else <[k := S (default 0 (t !! k))]> t.

(** The two-dimensional count table: the labels of its rows and columns,
    and the group sizes.  A pair of labels that is no group has no entry:
    unstacking leaves that cell NaN (no [fill_value] is passed). *)
Record CountTable := mkCountTable {
  row_labels : gset value;
  col_labels : gset value;
  counts : gmap (value * value) nat
}.

(** A cell of the heatmap: [None] is a NaN cell. *)
Definition cell (t : CountTable) (r c : value) : option nat := counts t !! (r, c).

Definition unstack (sizes : gmap (value * value) nat) : CountTable :=
  mkCountTable (set_map fst (dom sizes)) (set_map snd (dom sizes)) sizes.

(** [pivot_table(index=index, columns=cols, aggfunc="size")]. *)
Definition pivot_table_size (df : DataFrame) (index cols : string)
  : result CountTable :=
  if bool_decide (index ∈ columns df) then
    if bool_decide (cols ∈ columns df)
    then Ok (unstack (foldl (size_step index cols) ∅ (rows df)))
    else Raise (KeyError [cols])
  else Raise (KeyError [index]).

(** The sum of the cells over all pairs of a row label and a column label;
    a NaN cell adds nothing, as in [table.sum().sum()]. *)
Definition cell_total (t : CountTable) : nat :=
  sum_list ((λ rc : value * value, default 0 (cell t rc.1 rc.2))
              <$> cprod (elements (row_labels t)) (elements (col_labels t))).

(** ** Python's [int] and Streamlit's slider *)

Definition is_space (a : ascii) : bool :=
  let n := nat_of_ascii a in
  ((9 <=? n) && (n <=? 13) || (28 <=? n) && (n <=? 32))%nat.

Definition digit_of (a : ascii) : option Z :=
  let n := nat_of_ascii a in
  if ((48 <=? n) && (n <=? 57))%nat then Some (Z.of_nat (n - 48)) else None.

Fixpoint lstrip (s : string) : string :=
  match s with
  | String a s' => if is_space a then lstrip s' else s
  | EmptyString => s
  end.

Fixpoint all_space (s : string) : bool :=
  match s with
  | String a s' => is_space a && all_space s'
  | EmptyString => true
  end.

(** Decimal digits, single underscores allowed between two digits, then
    optional trailing white space.  [acc] is the number read so far and
    [after_digit] tells whether the last character was a digit. *)
Fixpoint digits (acc : Z) (after_digit : bool) (s : string) : option Z :=
  match s with
  | EmptyString => if after_digit then Some acc else None
  | String a s' =>
      match digit_of a with
      | Some d => digits (10 * acc + d) true s'
      | None =>
          if after_digit && Ascii.eqb a "_" then
            match s' with
            | String b _ =>
                match digit_of b with
                | Some _ => digits acc false s'
                | None => None
                end
            | EmptyString => None
            end
          else if after_digit && all_space s then Some acc else None
      end
  end.

(** [int(s)] for a string of ASCII characters; the cap that recent
    interpreters put on the number of digits is left out. *)
Definition int_of_str (s : string) : result Z :=
  let parsed :=
    match lstrip s with
    | String a s' =>
        if Ascii.eqb a "-" then Z.opp <$> digits 0 false s'
        else if Ascii.eqb a "+" then digits 0 false s'
        else digits 0 false (String a s')
    | EmptyString => None
    end in
  match parsed with Some n => Ok n | None => Raise ValueError end.

(** [int(default)]: a finite number is cut towards zero. *)
Definition py_int (v : value) : result Z :=
  match v with
  | VNum q => Ok (Z.quot (Qnum q) (Zpos (Qden q)))
  | VInf _ => Raise OverflowError
  | VNaN => Raise ValueError
  | VStr s => int_of_str s
  end.

Definition MAX_SAFE_INTEGER : Z := 2 ^ 53 - 1.

(** What [st.slider] draws on a first render: the bounds it ends up with
    and the value it shows and returns. *)
Record Slider := mkSlider {
  slider_label : string;
  slider_min : Z;
  slider_max : Z;
  slider_value : Z
}.

Global Instance Slider_eq_dec : EqDecision Slider.
Proof. solve_decision. Defined.

(** [st.slider(label, min_value=.., max_value=.., value=..)] with integer
    arguments.  The widget does not move the value into the bounds: it
    widens the bounds until they hold the value, and then refuses bounds
    that JavaScript cannot represent exactly. *)
Definition st_slider (label : string) (min_value max_value value : Z)
  : result Slider :=
  let lo := Z.min min_value max_value in
  let hi := Z.max lo max_value in
  let lo := Z.min value lo in
  let hi := Z.max value hi in
  if bool_decide (- MAX_SAFE_INTEGER ≤ lo ∧ hi ≤ MAX_SAFE_INTEGER)%Z
  then Ok (mkSlider label lo hi value)
  else Raise StreamlitAPIException.

(** The body of the seeding loop of the scenario section:
    [st.slider(factor, min_value=0, max_value=100, value=int(default))]. *)
Definition seed_slider (factor default : value) : result Slider :=
  n ← py_int default;
  match factor with
  | VStr label => st_slider label 0 100 n
  | _ => Raise TypeError
  end.

(** [inputs[factor] = v] on a dictionary kept in insertion order. *)
Fixpoint dict_set (inputs : list (value * Z)) (factor : value) (v : Z)
  : list (value * Z) :=
  match inputs with
  | [] => [(factor, v)]
  | (k, w) :: rest =>
      if bool_decide (k = factor) then (k, v) :: rest
      else (k, w) :: dict_set rest factor v
  end.

(** The seeding loop over [zip(factors, default_values)].  Streamlit
    refuses a second widget that repeats the arguments of one already
    drawn in the same render; [drawn] holds the sliders so far. *)
Fixpoint seed_sliders (drawn : list Slider) (inputs : list (value * Z))
    (pairs : list (value * value)) : result (list (value * Z)) :=
  match pairs with
  | [] => Ok inputs
  | (factor, default) :: pairs' =>
      w ← seed_slider factor default;
      if bool_decide (w ∈ drawn) then Raise StreamlitAPIException
      else seed_sliders (w :: drawn) (dict_set inputs factor (slider_value w)) pairs'
  end.

(** ** The object store

    Tables, columns and pivot tables are Python objects reached through
    references: [data] is one object, handed to every section.  An
    operation that returns a new object allocates it; none of the calls
    the dashboard makes writes to an object that exists already. *)

Inductive object :=
  | ODataFrame (df : DataFrame)
  | OSeries (s : Series value)
  | OMask (m : Series bool)
  | OFirstTable (t : gmap value value)
  | OCountTable (t : CountTable).

Abbreviation ref := nat.
Abbreviation heap := (list object).

(** A computation over the store; an exception leaves the store as it was
    when it was raised. *)
Definition py (A : Type) : Type := heap → result A * heap.

Global Instance py_ret : MRet py := λ A a h, (Ok a, h).
Global Instance py_bind : MBind py := λ A B f m h,
  match m h with
  | (Ok a, h') => f a h'
  | (Raise e, h') => (Raise e, h')
  end.

Definition new (o : object) : py ref := λ h, (Ok (length h), (h ++ [o])%list).

Definition lift {A} (r : result A) : py A := λ h, (r, h).

Definition frame_at (l : ref) : py DataFrame := λ h,
  match h !! l with
  | Some (ODataFrame df) => (Ok df, h)
  | _ => (Raise TypeError, h)
  end.

Definition series_at (l : ref) : py (Series value) := λ h,
  match h !! l with
  | Some (OSeries s) => (Ok s, h)
  | _ => (Raise TypeError, h)
  end.

Definition mask_at (l : ref) : py (Series bool) := λ h,
  match h !! l with
  | Some (OMask m) => (Ok m, h)
  | _ => (Raise TypeError, h)
  end.

(** [df[c]] *)
Definition df_getitem (df : ref) (c : string) : py ref :=
  d ← frame_at df; s ← lift (getitem_column d c); new (OSeries s).

(** [s == label] *)
Definition series_eq_label (s : ref) (label : string) : py ref :=
  col ← series_at s; new (OMask (series_eq col label)).

(** [df[mask]] *)
Definition df_getitem_bool (df mask : ref) : py ref :=
  d ← frame_at df; m ← mask_at mask; new (ODataFrame (getitem_mask d m)).

(** [df.dropna(subset=subset)] *)
Definition df_dropna (df : ref) (subset : option (list string)) : py ref :=
  d ← frame_at df; d' ← lift (dropna d subset); new (ODataFrame d').

(** [df.pivot_table(values=values, index=index, aggfunc='first')] *)
Definition df_pivot_table_first (df : ref) (values index : string) : py ref :=
  d ← frame_at df; t ← lift (pivot_table_first d values index);
  new (OFirstTable t).

(** [df.pivot_table(index=index, columns=cols, aggfunc="size")] *)
Definition df_pivot_table_size (df : ref) (index cols : string) : py ref :=
  d ← frame_at df; t ← lift (pivot_table_size d index cols);
  new (OCountTable t).

(** [s.tolist()] *)
Definition series_tolist (s : ref) : py (list value) :=
  col ← series_at s; mret (col.*2).

(** [len(s)] *)
Definition series_len (s : ref) : py nat :=
  col ← series_at s; mret (length col).

(** [drop_duplicates] on the cells of a column: a cell equal to one of
    [seen], or to an earlier cell, is left out; the others stay in order. *)
Fixpoint drop_duplicates (seen : list value) (l : list value) : list value :=
  match l with
  | [] => []
  | x :: l' =>
      if bool_decide (x ∈ seen) then drop_duplicates seen l'
      else x :: drop_duplicates (x :: seen) l'
  end.

(** [s.drop_duplicates().tolist()]: the first occurrence of each value. *)
Definition series_drop_duplicates_tolist (s : ref) : py (list value) :=
  col ← series_at s; mret (drop_duplicates [] (col.*2)).

(** [data[data["Component"] == label].dropna(subset=fields)], evaluated
    against the store. *)
Definition select_section (data : ref) (label : string)
    (fields : list string) : py ref :=
  component ← df_getitem data "Component";
  mask ← series_eq_label component label;
  selected ← df_getitem_bool data mask;
  df_dropna selected (Some fields).

(** The table a computation hands back, read from the store it leaves. *)
Definition frame_of (m : py ref) (h : heap) : result DataFrame :=
  match m h with
  | (Ok l, h') => (frame_at l h').1
  | (Raise e, _) => Raise e
  end.

(** ** What the chart calls check

    A chart call is followed as far as the check that decides whether it
    accepts what it is handed; what it then draws is not described. *)

(** A finite wedge size of a pie chart as single precision stores it:
    [ax.pie(x, ...)] begins with [np.asarray(x, np.float32)]. *)
Inductive wedge := NegativeSize | ZeroSize | PositiveSize.

Global Instance wedge_eq_dec : EqDecision wedge.
Proof. solve_decision. Defined.

(** Half of the least positive single-precision number: a number no
    farther from zero is stored as zero. *)
Definition float32_tiny : Qc := Q2Qc (1 # 2 ^ 150).

(** Half-way between the greatest single-precision number and [2^128]:
    from there on a number is stored as an infinity. *)
Definition float32_overflow : Qc := Q2Qc (inject_Z (2 ^ 128 - 2 ^ 103)).

(** The size that [np.asarray(x, np.float32)] stores for a cell that holds
    a number within the range of single precision.  A cell of text goes
    through Python's [float], and a size stored as an infinity or as NaN
    meets a check of its own; neither is described here. *)
Definition as_float32 (v : value) : option wedge :=
  match v with
  | VNum q =>
      if bool_decide (- float32_overflow < q ∧ q < float32_overflow)%Qc
      then Some (if bool_decide (q < - float32_tiny)%Qc then NegativeSize
                 else if bool_decide (float32_tiny < q)%Qc then PositiveSize
                 else ZeroSize)
      else None
  | VInf _ | VNaN | VStr _ => None
  end.

(** The checks that [pie] makes on finite sizes before it draws a wedge:
    no size below zero, and a sum other than zero.  Sizes that are not
    negative sum to zero only when each of them is zero, and so do no
    sizes at all. *)
Definition pie_checks (x : list wedge) : result unit :=
  if bool_decide (NegativeSize ∈ x) then Raise ValueError
  else if bool_decide (Forall (λ w, w = ZeroSize) x) then Raise ValueError
  else Ok ().

(** [ax.pie(sizes, labels=labels, ...)] on the sizes it is handed: whether
    it raises; [None] for sizes that [as_float32] does not describe. *)
Definition ax_pie (sizes : list value) : option (result unit) :=
  pie_checks <$> mapM as_float32 sizes.

(** [sns.barplot(data=df, x=x, y=y)] as far as the look-up of its two
    variables: a name that is no column of [df] is refused. *)
Definition sns_barplot_variables (df : DataFrame) (x y : string)
  : result unit :=
  if bool_decide (x ∈ columns df ∧ y ∈ columns df) then Ok ()
  else Raise ValueError.

(** ** The sections of [xai_powered_analytics_dashboard.py]

    Each section is given with what it hands to its charts: the selection
    and the shaping of the data, and the seeding of the sliders.  The
    chart calls themselves are not part of these definitions, so [Ok]
    says that the shaping came to its end, not that the section drew its
    charts; [data_sources_pie] adds the pie chart's check of its sizes. *)

Module xai_powered_analytics_dashboard.

Definition model_interpretability_section (data : ref) : py ref :=
  model_data ← select_section data "Model Interpretability"
                  ["Feature"; "SHAP Value"; "LIME Weight"];
  mret model_data.

(** The labels and the sizes of the pie chart, and the number of colours
    asked from the palette. *)
Definition data_sources_section (data : ref) : py (ref * ref * nat) :=
  source_data ← select_section data "Data Sources"
                   ["Source"; "Percentage Contribution (%)"];
  labels ← df_getitem source_data "Source";
  sizes ← df_getitem source_data "Percentage Contribution (%)";
  n ← series_len labels;
  mret (labels, sizes, n).

(** The section up to its pie chart, [ax.pie(sizes, labels=labels, ...)]:
    what the chart call does with the sizes it is handed. *)
Definition data_sources_pie (data : ref) : py (option (result unit)) :=
  handed ← data_sources_section data;
  sizes ← series_tolist handed.1.2;
  mret (ax_pie sizes).

Definition key_metrics_section (data : ref) : py ref :=
  metrics_data ← select_section data "Key Metrics"
                    ["Model"; "Accuracy (%)"; "Compliance Rate (%)"];
  mret metrics_data.

(** The heatmap table and the dictionary [inputs] of slider values. *)
Definition real_world_scenario_section (data : ref)
  : py (ref * list (value * Z)) :=
  scenario_data ← select_section data "Real-World Scenario"
                     ["Risk Factor"; "Risk Score Contribution (%)"; "Correlation"];
  pivot_table ← df_pivot_table_first scenario_data
                   "Risk Score Contribution (%)" "Risk Factor";
  factors ← (c ← df_getitem scenario_data "Risk Factor"; series_tolist c);
  default_values ←
    (c ← df_getitem scenario_data "Risk Score Contribution (%)";
     series_tolist c);
  inputs ← lift (seed_sliders [] [] (zip factors default_values));
  mret (pivot_table, inputs).

(** [main], from the loaded table on. *)
Definition main (data : ref) : py unit :=
  _ ← model_interpretability_section data;
  _ ← data_sources_section data;
  _ ← key_metrics_section data;
  _ ← real_world_scenario_section data;
  mret ().

End xai_powered_analytics_dashboard.

(** ** The script [_1.py] *)

Module script_1.

Definition model_data (data : ref) : py ref :=
  component ← df_getitem data "Component";
  mask ← series_eq_label component "Model Interpretability";
  df_getitem_bool data mask.

Definition source_data (data : ref) : py ref :=
  component ← df_getitem data "Component";
  mask ← series_eq_label component "Data Sources";
  selected ← df_getitem_bool data mask;
  df_dropna selected None.

(** The node labels of the Sankey diagram. *)
Definition sankey_labels (source_data : ref) : py (list value) :=
  c ← df_getitem source_data "Source"; series_drop_duplicates_tolist c.

Definition metrics_data (data : ref) : py ref :=
  df_dropna data (Some ["Accuracy"; "Compliance Rate"]).

Definition scenario_data (data : ref) : py ref :=
  df_dropna data (Some ["Risk Factor"; "Correlation"]).

Definition heatmap_table (scenario_data : ref) : py ref :=
  df_pivot_table_size scenario_data "Risk Factor" "Correlation".

Definition loan_to_income_ratio : result Slider :=
  st_slider "Loan-to-Income Ratio" 0 100 35.
Definition payment_history : result Slider :=
  st_slider "Payment History Impact" 0 100 30.
Definition credit_utilization : result Slider :=
  st_slider "Credit Utilization Impact" 0 100 20.

(** [metrics_data.set_index("Model")["Accuracy"]], the series of the bar
    chart.  The re-indexed table is a temporary of the expression; the
    series is handed over as a value. *)
Definition accuracy_series (metrics_data : ref) : py (list (value * value)) :=
  d ← frame_at metrics_data;
  lift (indexed ← set_index d "Model"; indexed_getitem indexed "Accuracy").

(** [metrics_data.set_index("Model")["Compliance Rate"]], the series of
    the line chart. *)
Definition compliance_series (metrics_data : ref) : py (list (value * value)) :=
  d ← frame_at metrics_data;
  lift (indexed ← set_index d "Model";
        indexed_getitem indexed "Compliance Rate").

(** The script from the loaded table on. *)
Definition script (data : ref) : py unit :=
  _ ← model_data data;
  sd ← source_data data;
  _ ← sankey_labels sd;
  _ ← metrics_data data;
  sc ← scenario_data data;
  _ ← heatmap_table sc;
  _ ← lift loan_to_income_ratio;
  _ ← lift payment_history;
  _ ← lift credit_utilization;
  mret ().

(** The [model_data] that line 28 hands to [sns.barplot], checked for the
    two variables of the chart. *)
Definition feature_chart (model_data : ref) : py unit :=
  d ← frame_at model_data;
  lift (sns_barplot_variables d "SHAP Value" "Feature").

(** Every pandas call of [_1.py] in the order of the file, with the
    look-up of the variables of the first bar chart and the two series of
    the metrics charts.  What the charts draw is left out: [Ok] says that
    none of these steps raised. *)
Definition script_with_charts (data : ref) : py unit :=
  features ← model_data data;
  _ ← feature_chart features;
  sd ← source_data data;
  _ ← sankey_labels sd;
  md ← metrics_data data;
  _ ← accuracy_series md;
  _ ← compliance_series md;
  sc ← scenario_data data;
  _ ← heatmap_table sc;
  _ ← lift loan_to_income_ratio;
  _ ← lift payment_history;
  _ ← lift credit_utilization;
  mret ().

End script_1.

(** ** Notions used in the statements *)

(** The rows a section view is made of. *)
Definition section_rows (data : DataFrame) (label : string)
    (cs : list string) : list (nat * record) :=
  filter (λ ir : nat * record, complete_on cs ir.2)
    (filter (λ ir : nat * record, in_section label ir.2) (rows data)).

(** A computation that only allocates returns a store that extends the one
    it was given: every object that existed is still there, unchanged. *)
Definition allocates_only {A} (m : py A) : Prop :=
  ∀ h, h `prefix_of` (m h).2.

(** The [values] field of the first row whose [index] field is [k]. *)
Definition first_bearing (index values : string) (k : value)
    (rs : list (nat * record)) : option value :=
  (λ ir : nat * record, field ir.2 values)
    <$> head (filter (λ ir : nat * record, field ir.2 index = k) rs).

(** The [values] field of the first row whose [index] field is [k] and
    whose [values] field is not missing; a NaN key has none. *)
Definition first_valued (index values : string) (k : value)
    (rs : list (nat * record)) : option value :=
  if isna k then None
  else (λ ir : nat * record, field ir.2 values)
         <$> head (filter (λ ir : nat * record,
                             field ir.2 index = k ∧
                             isna (field ir.2 values) = false) rs).

(** The row belongs to the group [k] of a grouping by the columns [index]
    and [cols]; a row with a NaN key belongs to no group. *)
Definition in_group (index cols : string) (k : value * value)
    (ir : nat * record) : Prop :=
  (field ir.2 index, field ir.2 cols) = k ∧
  isna k.1 = false ∧ isna k.2 = false.

Global Instance in_group_dec index cols k ir : Decision (in_group index cols k ir).
Proof. unfold in_group. apply _. Defined.

Definition group_size (index cols : string) (k : value * value)
    (rs : list (nat * record)) : nat :=
  length (filter (in_group index cols k) rs).

(** The row has a value in both key columns. *)
Definition keyed (index cols : string) (ir : nat * record) : Prop :=
  isna (field ir.2 index) = false ∧ isna (field ir.2 cols) = false.

Global Instance keyed_dec index cols ir : Decision (keyed index cols ir).
Proof. unfold keyed. apply _. Defined.

(** The sum of the entries of a count map over a list of keys. *)
Definition sum_over (ps : list (value * value))
    (m : gmap (value * value) nat) : nat :=
  sum_list ((λ p, default 0 (m !! p)) <$> ps).

(** The number of rows that share the pair [(r, c)] in the two columns. *)
Definition count_pair (index cols : string) (r c : value)
    (rs : list (nat * record)) : nat :=
  length (filter (λ ir : nat * record,
                    field ir.2 index = r ∧ field ir.2 cols = c) rs).

(** Whether a computation came to its end, whatever it returned. *)
Definition status {A} (r : result A) : result unit :=
  match r with Ok _ => Ok () | Raise e => Raise e end.

(** The columns that [xai_powered_analytics_dashboard.py] names. *)
Definition dashboard_columns : list string :=
  ["Component"; "Feature"; "SHAP Value"; "LIME Weight"; "Source";
   "Percentage Contribution (%)"; "Model"; "Accuracy (%)";
   "Compliance Rate (%)"; "Risk Factor"; "Risk Score Contribution (%)";
   "Correlation"].

(** The label and the required fields of each section of the dashboard. *)
Definition dashboard_sections : list (string * list string) :=
  [("Model Interpretability", ["Feature"; "SHAP Value"; "LIME Weight"]);
   ("Data Sources", ["Source"; "Percentage Contribution (%)"]);
   ("Key Metrics", ["Model"; "Accuracy (%)"; "Compliance Rate (%)"]);
   ("Real-World Scenario",
    ["Risk Factor"; "Risk Score Contribution (%)"; "Correlation"])].

(** The columns that [_1.py] names. *)
Definition script_columns : list string :=
  ["Component"; "SHAP Value"; "Feature"; "Source"; "Accuracy";
   "Compliance Rate"; "Model"; "Risk Factor"; "Correlation"].

(** [zip(factors, default_values)] for the rows of a scenario view. *)
Definition scenario_pairs (rs : list (nat * record)) : list (value * value) :=
  zip ((column_of rs "Risk Factor").*2)
      ((column_of rs "Risk Score Contribution (%)").*2).

(** [inputs.get(factor)] *)
Fixpoint dict_get (inputs : list (value * Z)) (factor : value) : option Z :=
  match inputs with
  | [] => None
  | (k, w) :: rest => if bool_decide (k = factor) then Some w else dict_get rest factor
  end.

(** How far the selections and the slider seeding of [main] get on a
    table, read off the table alone: the four section views in turn, then
    the sliders of the scenario view. *)
Definition main_status (D : DataFrame) : result unit :=
  _ ← selectSection D "Model Interpretability"
         ["Feature"; "SHAP Value"; "LIME Weight"];
  _ ← selectSection D "Data Sources" ["Source"; "Percentage Contribution (%)"];
  _ ← selectSection D "Key Metrics"
         ["Model"; "Accuracy (%)"; "Compliance Rate (%)"];
  V ← selectSection D "Real-World Scenario"
         ["Risk Factor"; "Risk Score Contribution (%)"; "Correlation"];
  _ ← seed_sliders [] [] (scenario_pairs (rows V));
  mret ().

(** How far the steps of [script_with_charts] get on a table, read off
    the table alone. *)
Definition script_status (D : DataFrame) : result unit :=
  _ ← getitem_column D "Component";
  _ ← sns_barplot_variables D "SHAP Value" "Feature";
  _ ← getitem_column D "Source";
  _ ← dropna D (Some ["Accuracy"; "Compliance Rate"]);
  _ ← getitem_column D "Model";
  _ ← dropna D (Some ["Risk Factor"; "Correlation"]);
  mret ().

(** What [inputs] holds for a factor after the loop over [pairs]: the
    integer part of the default of the last pair with that factor. *)
Definition last_default (pairs : list (value * value)) (factor : value)
  : option Z :=
  match last (filter (λ p : value * value, p.1 = factor) pairs) with
  | Some p => match py_int p.2 with Ok n => Some n | Raise _ => None end
  | None => None
  end.

(** ** Sample tables *)

(** The number [n / d] as a cell. *)
Definition num (n d : Z) : value := VNum (Q2Qc (n # Z.to_pos d)).

(** A record from its fields. *)
Definition row (fields : list (string * value)) : record := list_to_map fields.

(** The columns of the dashboard's CSV file. *)
Definition sample_columns : list string :=
  ["Component"; "Feature"; "SHAP Value"; "LIME Weight"; "Source";
   "Percentage Contribution (%)"; "Model"; "Accuracy (%)";
   "Compliance Rate (%)"; "Risk Factor"; "Risk Score Contribution (%)";
   "Correlation"].

(** Its rows; a field that is not listed is missing. *)
Definition sample_rows : list (nat * record) :=
  [ (0, row [("Component", VStr "Model Interpretability");
             ("Feature", VStr "Income"); ("SHAP Value", num 35 100);
             ("LIME Weight", num 3 10)]);
    (1, row [("Component", VStr "Data Sources");
             ("Source", VStr "Credit Bureau");
             ("Percentage Contribution (%)", num 40 1)]);
    (2, row [("Component", VStr "Data Sources");
             ("Source", VStr "Bank Records");
             ("Percentage Contribution (%)", num 60 1)]);
    (3, row [("Component", VStr "Key Metrics"); ("Model", VStr "A");
             ("Accuracy (%)", num 92 1); ("Compliance Rate (%)", num 95 1)]);
    (4, row [("Component", VStr "Key Metrics"); ("Model", VStr "B");
             ("Accuracy (%)", VNaN); ("Compliance Rate (%)", num 90 1)]);
    (5, row [("Component", VStr "Key Metrics"); ("Model", VStr "C");
             ("Accuracy (%)", num 88 1); ("Compliance Rate (%)", num 97 1)]);
    (6, row [("Component", VStr "Real-World Scenario");
             ("Risk Factor", VStr "Loan-to-Income Ratio");
             ("Risk Score Contribution (%)", num 135 1);
             ("Correlation", VStr "High")]);
    (7, row [("Component", VStr "Real-World Scenario");
             ("Risk Factor", VStr "Payment History");
             ("Risk Score Contribution (%)", num 30 1);
             ("Correlation", VStr "Low")]) ].

(** A small table in the shape of the dashboard's CSV file: one feature
    row, two data sources, three models of which one lacks its accuracy,
    and two risk factors, the first with a contribution of 135. *)
Definition sample : DataFrame := mkDataFrame sample_columns sample_rows.

(** The rows of [sample] at the given positions. *)
Definition sample_at (positions : list nat) : list (nat * record) :=
  omap (λ i, sample_rows !! i) positions.


(** The scenario view of [sample]. *)
Definition sample_scenario : DataFrame :=
  mkDataFrame sample_columns (sample_at [6; 7]).

(** A table of model metrics only, with no column for sources. *)
Definition metrics_only : DataFrame :=
  mkDataFrame ["Component"; "Model"]
    [(0, row [("Component", VStr "Key Metrics"); ("Model", VStr "A")])].

(** A table in the shape of the file read by [_1.py], whose only row
    belongs to the data sources and yet has an accuracy and a compliance
    rate. *)
Definition script_table : DataFrame :=
  mkDataFrame ["Component"; "Model"; "Accuracy"; "Compliance Rate"]
    [(0, row [("Component", VStr "Data Sources"); ("Model", VStr "X");
              ("Accuracy", num 90 1); ("Compliance Rate", num 80 1)])].

(** Closes an equation between closed terms by evaluating both sides. *)
Ltac vm_refl :=
  lazymatch goal with
  | |- @eq ?T _ ?r => vm_cast_no_check (@eq_refl T r)
  end.

(** ** Facts about the pandas operations *)

Lemma filter_ext_in {A} (P Q : A → Prop) `{!∀ x, Decision (P x)}
    `{!∀ x, Decision (Q x)} (l : list A) :
  (∀ x, x ∈ l → P x ↔ Q x) → filter P l = filter Q l.
Proof.
  induction l as [|a l IH]; intros Hiff; [done|]. rewrite !filter_cons.
  rewrite IH by (intros ? ?; apply Hiff; by right).
  destruct (decide (P a)) as [Hp|Hp].
  - by rewrite decide_True by (by apply Hiff; [left|]).
  - rewrite decide_False; [done|]. intros ?. apply Hp, Hiff; [left|done].
Qed.

Lemma filter_all {A} (P : A → Prop) `{!∀ x, Decision (P x)} (l : list A) :
  (∀ x, x ∈ l → P x) → filter P l = l.
Proof.
  induction l as [|a l IH]; intros Hall; [done|].
  rewrite filter_cons_True by (apply Hall; left).
  by rewrite IH by (intros ? ?; apply Hall; by right).
Qed.

Section frame_facts.
Implicit Types (df data view : DataFrame) (rs : list (nat * record)).
Implicit Types (label c : string) (cs : list string).

Lemma complete_on_spec cs (r : record) :
  complete_on cs r ↔ ∀ c, c ∈ cs → isna (field r c) = false.
Proof.
  unfold complete_on. rewrite forallb_True, Forall_forall.
  split; intros H c Hc; specialize (H c Hc); unfold notna in *;
    destruct (isna (field r c)); naive_solver.
Qed.

Lemma field_notna_lookup (r : record) c :
  isna (field r c) = false → is_Some (r !! c).
Proof. unfold field. destruct (r !! c); [eauto | discriminate]. Qed.

Lemma getitem_column_Ok df c :
  c ∈ columns df →
  getitem_column df c = Ok (column_of (rows df) c).
Proof. intros Hc. unfold getitem_column. by rewrite bool_decide_eq_true_2. Qed.

Lemma getitem_column_Raise df c :
  c ∉ columns df → getitem_column df c = Raise (KeyError [c]).
Proof. intros Hc. unfold getitem_column. by rewrite bool_decide_eq_false_2. Qed.

(** Indexing by the mask of a label comparison is a filter. *)
Lemma select_rows_series_eq rs c label :
  select_rows rs (series_eq (column_of rs c) label)
  = filter (λ ir : nat * record, field ir.2 c = VStr label) rs.
Proof.
  induction rs as [|ir rs IH]; [done|]. rewrite filter_cons, <-IH.
  unfold column_of, series_eq. simpl.
  destruct (decide (field ir.2 c = VStr label)) as [He|He].
  - by rewrite bool_decide_eq_true_2.
  - by rewrite bool_decide_eq_false_2.
Qed.

Lemma dropna_Ok df cs :
  cs ⊆ columns df →
  dropna df (Some cs)
  = Ok (mkDataFrame (columns df)
          (filter (λ ir : nat * record, complete_on cs ir.2) (rows df))).
Proof.
  intros Hsub. unfold dropna. simpl.
  assert (filter (λ c, c ∉ columns df) cs = []) as ->; [|done].
  destruct (filter _ cs) as [|c ?] eqn:Hf; [done|].
  assert (c ∈ filter (λ c, c ∉ columns df) cs) as [Hn Hc]%list_elem_of_filter
    by (rewrite Hf; left).
  destruct Hn. by apply Hsub.
Qed.

Lemma dropna_Ok_inv df cs view :
  dropna df (Some cs) = Ok view →
  view = mkDataFrame (columns df)
           (filter (λ ir : nat * record, complete_on cs ir.2) (rows df)).
Proof.
  unfold dropna. change (default (columns df) (Some cs)) with cs.
  case_bool_decide; congruence.
Qed.

Lemma dropna_Raise df cs c :
  c ∈ cs → c ∉ columns df →
  dropna df (Some cs) = Raise (KeyError (filter (λ c, c ∉ columns df) cs)).
Proof.
  intros Hc Hn. unfold dropna. simpl. rewrite bool_decide_eq_false_2; [done|].
  intros Hnil. by eapply (filter_nil_not_elem_of _ _ c Hnil).
Qed.

Lemma selectSection_Ok data label cs :
  "Component" ∈ columns data → cs ⊆ columns data →
  selectSection data label cs
  = Ok (mkDataFrame (columns data) (section_rows data label cs)).
Proof.
  intros HC Hcs. unfold selectSection. rewrite getitem_column_Ok by done.
  cbn [mbind result_bind]. rewrite dropna_Ok by done. simpl.
  by rewrite select_rows_series_eq.
Qed.

Lemma selectSection_Ok_inv data label cs view :
  selectSection data label cs = Ok view →
  "Component" ∈ columns data ∧ cs ⊆ columns data ∧
  view = mkDataFrame (columns data) (section_rows data label cs).
Proof.
  intros H.
  destruct (decide ("Component" ∈ columns data)) as [HC|HC]; cycle 1.
  { unfold selectSection in H. by rewrite getitem_column_Raise in H. }
  destruct (filter (λ c, c ∉ columns data) cs) as [|c ?] eqn:Hf.
  - assert (cs ⊆ columns data) as Hcs.
    { intros c Hc. destruct (decide (c ∈ columns data)); [done|].
      by destruct (filter_nil_not_elem_of _ _ c Hf). }
    rewrite selectSection_Ok in H by done. naive_solver.
  - assert (c ∈ filter (λ c, c ∉ columns data) cs) as [Hn Hc]%list_elem_of_filter
      by (rewrite Hf; left).
    unfold selectSection in H. rewrite getitem_column_Ok in H by done.
    cbn [mbind result_bind] in H. by rewrite (dropna_Raise _ _ c) in H.
Qed.

Lemma selectSection_Raise data label cs c :
  c ∈ cs → c ∉ columns data →
  selectSection data label cs
  = Raise (KeyError (if bool_decide ("Component" ∈ columns data)
                     then filter (λ c, c ∉ columns data) cs
                     else ["Component"])).
Proof.
  intros Hc Hn. unfold selectSection. case_bool_decide as HC.
  - rewrite getitem_column_Ok by done. cbn [mbind result_bind].
    by rewrite (dropna_Raise _ _ c).
  - by rewrite getitem_column_Raise.
Qed.

Lemma elem_of_section_rows data label cs ir :
  ir ∈ section_rows data label cs ↔
  ir ∈ rows data ∧ in_section label ir.2 ∧
  ∀ c, c ∈ cs → isna (field ir.2 c) = false.
Proof.
  unfold section_rows. rewrite !list_elem_of_filter, complete_on_spec.
  tauto.
Qed.

End frame_facts.

(** ** Facts about the store *)

Section store_facts.
Context {A B : Type}.

Lemma allocates_only_ret (a : A) : allocates_only (mret a).
Proof. intros h. done. Qed.

Lemma allocates_only_lift (r : result A) : allocates_only (lift r).
Proof. intros h. done. Qed.

Lemma allocates_only_bind (m : py A) (f : A → py B) :
  allocates_only m → (∀ a, allocates_only (f a)) → allocates_only (m ≫= f).
Proof.
  intros Hm Hf h. unfold mbind, py_bind. specialize (Hm h).
  destruct (m h) as [[a|e] h']; simpl in *; [|done].
  etrans; [exact Hm | apply Hf].
Qed.

Lemma prefix_lookup_object (h h' : heap) (l : ref) (o : object) :
  h `prefix_of` h' → h !! l = Some o → h' !! l = Some o.
Proof. intros Hp Hl. by eapply prefix_lookup_Some. Qed.
End store_facts.

Lemma allocates_only_new o : allocates_only (new o).
Proof. intros h. by apply prefix_app_r. Qed.

Lemma allocates_only_frame_at l : allocates_only (frame_at l).
Proof. intros h. unfold frame_at. by destruct (h !! l) as [[]|]. Qed.

Lemma allocates_only_series_at l : allocates_only (series_at l).
Proof. intros h. unfold series_at. by destruct (h !! l) as [[]|]. Qed.

Lemma allocates_only_mask_at l : allocates_only (mask_at l).
Proof. intros h. unfold mask_at. by destruct (h !! l) as [[]|]. Qed.

Create HintDb store discriminated.
#[export] Hint Resolve allocates_only_ret allocates_only_lift
  allocates_only_new allocates_only_frame_at allocates_only_series_at
  allocates_only_mask_at : store.

(** Splits a computation at its binds and closes the steps from the
    database. *)
Ltac allocates :=
  repeat first
    [ solve [eauto 2 with store]
    | apply allocates_only_bind; [|intros ?] ].

Lemma allocates_only_df_getitem df c : allocates_only (df_getitem df c).
Proof. unfold df_getitem. allocates. Qed.

Lemma allocates_only_series_eq_label s label :
  allocates_only (series_eq_label s label).
Proof. unfold series_eq_label. allocates. Qed.

Lemma allocates_only_df_getitem_bool df mask :
  allocates_only (df_getitem_bool df mask).
Proof. unfold df_getitem_bool. allocates. Qed.

Lemma allocates_only_df_dropna df subset : allocates_only (df_dropna df subset).
Proof. unfold df_dropna. allocates. Qed.

Lemma allocates_only_df_pivot_table_first df values index :
  allocates_only (df_pivot_table_first df values index).
Proof. unfold df_pivot_table_first. allocates. Qed.

Lemma allocates_only_df_pivot_table_size df index cols :
  allocates_only (df_pivot_table_size df index cols).
Proof. unfold df_pivot_table_size. allocates. Qed.

Lemma allocates_only_series_tolist s : allocates_only (series_tolist s).
Proof. unfold series_tolist. allocates. Qed.

Lemma allocates_only_series_len s : allocates_only (series_len s).
Proof. unfold series_len. allocates. Qed.

Lemma allocates_only_series_drop_duplicates_tolist s :
  allocates_only (series_drop_duplicates_tolist s).
Proof. unfold series_drop_duplicates_tolist. allocates. Qed.

#[export] Hint Resolve allocates_only_df_getitem allocates_only_series_eq_label
  allocates_only_df_getitem_bool allocates_only_df_dropna
  allocates_only_df_pivot_table_first allocates_only_df_pivot_table_size
  allocates_only_series_tolist allocates_only_series_len
  allocates_only_series_drop_duplicates_tolist : store.

Lemma allocates_only_select_section data label fields :
  allocates_only (select_section data label fields).
Proof. unfold select_section. allocates. Qed.

#[export] Hint Resolve allocates_only_select_section : store.

Lemma allocates_only_model_interpretability_section data :
  allocates_only (xai_powered_analytics_dashboard.model_interpretability_section data).
Proof. unfold xai_powered_analytics_dashboard.model_interpretability_section. allocates. Qed.

Lemma allocates_only_data_sources_section data :
  allocates_only (xai_powered_analytics_dashboard.data_sources_section data).
Proof. unfold xai_powered_analytics_dashboard.data_sources_section. allocates. Qed.

Lemma allocates_only_key_metrics_section data :
  allocates_only (xai_powered_analytics_dashboard.key_metrics_section data).
Proof. unfold xai_powered_analytics_dashboard.key_metrics_section. allocates. Qed.

Lemma allocates_only_real_world_scenario_section data :
  allocates_only (xai_powered_analytics_dashboard.real_world_scenario_section data).
Proof. unfold xai_powered_analytics_dashboard.real_world_scenario_section. allocates. Qed.

#[export] Hint Resolve allocates_only_model_interpretability_section
  allocates_only_data_sources_section allocates_only_key_metrics_section
  allocates_only_real_world_scenario_section : store.

Lemma allocates_only_main data :
  allocates_only (xai_powered_analytics_dashboard.main data).
Proof. unfold xai_powered_analytics_dashboard.main. allocates. Qed.

Lemma allocates_only_script data : allocates_only (script_1.script data).
Proof.
  unfold script_1.script, script_1.model_data, script_1.source_data,
    script_1.sankey_labels, script_1.metrics_data, script_1.scenario_data,
    script_1.heatmap_table.
  allocates.
Qed.

(** *** Running the operations on a store *)

Lemma lookup_new (h : heap) (o : object) : (h ++ [o])%list !! length h = Some o.
Proof. by rewrite lookup_app_r, Nat.sub_diag. Qed.

Lemma lookup_old (h hx : heap) (l : ref) (o : object) :
  h !! l = Some o → (h ++ hx)%list !! l = Some o.
Proof. apply lookup_app_l_Some. Qed.

Lemma run_bind {A B} (m : py A) (f : A → py B) (h : heap) :
  (m ≫= f) h = match m h with
               | (Ok a, h') => f a h'
               | (Raise e, h') => (Raise e, h')
               end.
Proof. done. Qed.

Lemma run_frame_at h l D :
  h !! l = Some (ODataFrame D) → frame_at l h = (Ok D, h).
Proof. intros Hl. unfold frame_at. by rewrite Hl. Qed.

Lemma run_series_at h l s :
  h !! l = Some (OSeries s) → series_at l h = (Ok s, h).
Proof. intros Hl. unfold series_at. by rewrite Hl. Qed.

Lemma run_mask_at h l m :
  h !! l = Some (OMask m) → mask_at l h = (Ok m, h).
Proof. intros Hl. unfold mask_at. by rewrite Hl. Qed.

Lemma run_df_getitem h df D c :
  h !! df = Some (ODataFrame D) →
  df_getitem df c h
  = match getitem_column D c with
    | Ok s => (Ok (length h), (h ++ [OSeries s])%list)
    | Raise e => (Raise e, h)
    end.
Proof.
  intros Hl. unfold df_getitem. rewrite run_bind, (run_frame_at _ _ D) by done.
  rewrite run_bind. unfold lift. by destruct (getitem_column D c).
Qed.

Lemma run_series_eq_label h s col label :
  h !! s = Some (OSeries col) →
  series_eq_label s label h
  = (Ok (length h), (h ++ [OMask (series_eq col label)])%list).
Proof.
  intros Hl. unfold series_eq_label. by rewrite run_bind, (run_series_at _ _ col).
Qed.

Lemma run_df_getitem_bool h df D mask m :
  h !! df = Some (ODataFrame D) → h !! mask = Some (OMask m) →
  df_getitem_bool df mask h
  = (Ok (length h), (h ++ [ODataFrame (getitem_mask D m)])%list).
Proof.
  intros Hd Hm. unfold df_getitem_bool.
  rewrite run_bind, (run_frame_at _ _ D) by done.
  by rewrite run_bind, (run_mask_at _ _ m).
Qed.

Lemma run_df_dropna h df D subset :
  h !! df = Some (ODataFrame D) →
  df_dropna df subset h
  = match dropna D subset with
    | Ok D' => (Ok (length h), (h ++ [ODataFrame D'])%list)
    | Raise e => (Raise e, h)
    end.
Proof.
  intros Hl. unfold df_dropna. rewrite run_bind, (run_frame_at _ _ D) by done.
  rewrite run_bind. unfold lift. by destruct (dropna D subset).
Qed.

Lemma run_df_pivot_table_first h df D values index :
  h !! df = Some (ODataFrame D) →
  df_pivot_table_first df values index h
  = match pivot_table_first D values index with
    | Ok t => (Ok (length h), (h ++ [OFirstTable t])%list)
    | Raise e => (Raise e, h)
    end.
Proof.
  intros Hl. unfold df_pivot_table_first.
  rewrite run_bind, (run_frame_at _ _ D) by done.
  rewrite run_bind. unfold lift. by destruct (pivot_table_first D values index).
Qed.

Lemma run_df_pivot_table_size h df D index cols :
  h !! df = Some (ODataFrame D) →
  df_pivot_table_size df index cols h
  = match pivot_table_size D index cols with
    | Ok t => (Ok (length h), (h ++ [OCountTable t])%list)
    | Raise e => (Raise e, h)
    end.
Proof.
  intros Hl. unfold df_pivot_table_size.
  rewrite run_bind, (run_frame_at _ _ D) by done.
  rewrite run_bind. unfold lift. by destruct (pivot_table_size D index cols).
Qed.

Lemma run_series_tolist h s col :
  h !! s = Some (OSeries col) → series_tolist s h = (Ok (col.*2), h).
Proof.
  intros Hl. unfold series_tolist. by rewrite run_bind, (run_series_at _ _ col).
Qed.

Lemma run_series_len h s col :
  h !! s = Some (OSeries col) → series_len s h = (Ok (length col), h).
Proof.
  intros Hl. unfold series_len. by rewrite run_bind, (run_series_at _ _ col).
Qed.

(** The store form of the section view agrees with [selectSection]: it
    raises the same exception or returns a reference to the same table. *)
Lemma run_select_section h data D label fields :
  h !! data = Some (ODataFrame D) →
  ∃ hx,
    select_section data label fields h
    = (match selectSection D label fields with
       | Ok _ => Ok (length h + 3)
       | Raise e => Raise e
       end, (h ++ hx)%list) ∧
    ∀ view, selectSection D label fields = Ok view →
            length hx = 4 ∧
            (h ++ hx)%list !! (length h + 3) = Some (ODataFrame view).
Proof.
  intros Hd. unfold select_section, selectSection.
  rewrite run_bind, (run_df_getitem _ _ D) by done.
  destruct (getitem_column D "Component") as [comp|e]; cbn [mbind result_bind].
  2:{ exists []. by rewrite app_nil_r. }
  rewrite run_bind, (run_series_eq_label _ _ comp) by apply lookup_new.
  rewrite run_bind.
  rewrite (run_df_getitem_bool _ _ D _ (series_eq comp label));
    [|by do 2 apply lookup_old|by apply lookup_new].
  rewrite (run_df_dropna _ _ (getitem_mask D (series_eq comp label)))
    by apply lookup_new.
  rewrite !length_app. simpl.
  replace (length h + 1 + 1 + 1) with (length h + 3) by lia.
  destruct (dropna _ _) as [view|e].
  - eexists [_; _; _; _]. split.
    + f_equal. by rewrite <-!app_assoc.
    + intros ? [= <-]. split; [done|]. rewrite lookup_app_r by lia.
      by replace (length h + 3 - length h) with 3 by lia.
  - eexists [_; _; _]. split; [|done]. f_equal. by rewrite <-!app_assoc.
Qed.

(** ** The section view: what it keeps and what it refuses *)

(** C1. Whatever [selectSection] returns, each of its records has a value
    in every required field, and every record of the dataset that carries
    the label and has a value in every required field is among them. *)
Theorem selectSection_sound_complete (D : DataFrame) (L : string)
    (F : list string) (V : DataFrame) :
  selectSection D L F = Ok V →
  (∀ ir, ir ∈ rows V → ∀ c, c ∈ F → isna (field ir.2 c) = false) ∧
  (∀ ir, ir ∈ rows D → in_section L ir.2 →
         (∀ c, c ∈ F → isna (field ir.2 c) = false) → ir ∈ rows V).
Proof.
  intros (_ & _ & ->)%selectSection_Ok_inv. simpl. split.
  - intros ir Hir. by apply elem_of_section_rows in Hir as (_ & _ & ?).
  - intros ir Hir HL HF. by apply elem_of_section_rows.
Qed.

Lemma selectSection_sound_complete_witness :
  selectSection sample "Key Metrics"
    ["Model"; "Accuracy (%)"; "Compliance Rate (%)"]
  = Ok (mkDataFrame sample_columns (sample_at [3; 5])) ∧
  (∀ ir, ir ∈ sample_at [3; 5] →
     ∀ c, c ∈ ["Model"; "Accuracy (%)"; "Compliance Rate (%)"] →
          isna (field ir.2 c) = false) ∧
  (∀ ir, ir ∈ rows sample → in_section "Key Metrics" ir.2 →
     (∀ c, c ∈ ["Model"; "Accuracy (%)"; "Compliance Rate (%)"] →
           isna (field ir.2 c) = false) →
     ir ∈ sample_at [3; 5]).
Proof.
  assert (selectSection sample "Key Metrics"
            ["Model"; "Accuracy (%)"; "Compliance Rate (%)"]
          = Ok (mkDataFrame sample_columns (sample_at [3; 5]))) as H
    by (vm_refl).
  split; [exact H|].
  exact (selectSection_sound_complete sample "Key Metrics"
           ["Model"; "Accuracy (%)"; "Compliance Rate (%)"]
           (mkDataFrame sample_columns (sample_at [3; 5])) H).
Defined.

(** A table that is well formed and holds a record of the section with all
    required fields has the columns the view needs: the view exists. *)
Lemma selectSection_defined (D : DataFrame) (L : string) (F : list string)
    (ir : nat * record) :
  well_formed D → ir ∈ rows D → in_section L ir.2 →
  (∀ c, c ∈ F → isna (field ir.2 c) = false) →
  is_Ok (selectSection D L F).
Proof.
  intros Hwf Hir HL HF. eexists. apply selectSection_Ok.
  - apply (Hwf ir); [done|]. apply field_notna_lookup.
    unfold in_section in HL. by rewrite HL.
  - intros c Hc. apply (Hwf ir); [done|]. by apply field_notna_lookup, HF.
Qed.

(** C2. With no required field, every returned record carries the label,
    and there are no more of them than records in the dataset. *)
Theorem selectSection_label_length (D : DataFrame) (L : string) (V : DataFrame) :
  selectSection D L [] = Ok V →
  (∀ ir, ir ∈ rows V → field ir.2 "Component" = VStr L) ∧
  (length (rows V) ≤ length (rows D))%nat.
Proof.
  intros (_ & _ & ->)%selectSection_Ok_inv. simpl. split.
  - intros ir Hir. by apply elem_of_section_rows in Hir as (_ & ? & _).
  - unfold section_rows. etrans; apply length_filter.
Qed.

Lemma selectSection_label_length_witness :
  selectSection sample "Data Sources" []
  = Ok (mkDataFrame sample_columns (sample_at [1; 2])) ∧
  (∀ ir, ir ∈ sample_at [1; 2] → field ir.2 "Component" = VStr "Data Sources") ∧
  (length (sample_at [1; 2]) ≤ length (rows sample))%nat.
Proof.
  assert (selectSection sample "Data Sources" []
          = Ok (mkDataFrame sample_columns (sample_at [1; 2]))) as H
    by (vm_refl).
  split; [exact H|].
  exact (selectSection_label_length sample "Data Sources"
           (mkDataFrame sample_columns (sample_at [1; 2])) H).
Defined.

(** C4. A required field that is no column of the dataset makes
    [selectSection] raise [KeyError], pandas' report of the schema
    mismatch; no view is returned, empty or not. *)
Theorem selectSection_absent_column (D : DataFrame) (L : string)
    (F : list string) (c : string) :
  c ∈ F → c ∉ columns D →
  (∃ keys, selectSection D L F = Raise (KeyError keys) ∧
           (c ∈ keys ∨ keys = ["Component"])) ∧
  ∀ V, selectSection D L F ≠ Ok V.
Proof.
  intros Hc Hn. rewrite (selectSection_Raise D L F c) by done. split; [|done].
  eexists. split; [done|]. case_bool_decide; [left|by right].
  by apply list_elem_of_filter.
Qed.

Lemma selectSection_absent_column_witness :
  ("Accuracy" ∈ ["Accuracy"; "Compliance Rate"]) ∧
  ("Accuracy" ∉ columns sample) ∧
  (∃ keys, selectSection sample "Key Metrics" ["Accuracy"; "Compliance Rate"]
           = Raise (KeyError keys) ∧
           ("Accuracy" ∈ keys ∨ keys = ["Component"])) ∧
  ∀ V, selectSection sample "Key Metrics" ["Accuracy"; "Compliance Rate"] ≠ Ok V.
Proof.
  assert ("Accuracy" ∈ ["Accuracy"; "Compliance Rate"]) as Hin
    by compute_done.
  assert ("Accuracy" ∉ columns sample) as Hout by compute_done.
  split; [exact Hin|]. split; [exact Hout|].
  exact (selectSection_absent_column sample "Key Metrics"
           ["Accuracy"; "Compliance Rate"] "Accuracy" Hin Hout).
Defined.

(** C8. The records of the view stand in the order they have in the
    dataset: the view is the dataset with some rows left out. *)
Theorem selectSection_order (D : DataFrame) (L : string) (F : list string)
    (V : DataFrame) :
  selectSection D L F = Ok V → rows V `sublist_of` rows D.
Proof.
  intros (_ & _ & ->)%selectSection_Ok_inv. simpl. unfold section_rows.
  etrans; apply sublist_filter.
Qed.

Lemma selectSection_order_witness :
  selectSection sample "Key Metrics" ["Accuracy (%)"]
  = Ok (mkDataFrame sample_columns (sample_at [3; 5])) ∧
  sample_at [3; 5] `sublist_of` rows sample.
Proof.
  assert (selectSection sample "Key Metrics" ["Accuracy (%)"]
          = Ok (mkDataFrame sample_columns (sample_at [3; 5]))) as H
    by (vm_refl).
  split; [exact H|].
  exact (selectSection_order sample "Key Metrics" ["Accuracy (%)"]
           (mkDataFrame sample_columns (sample_at [3; 5])) H).
Defined.

(** ** The sections are section views *)

Lemma frame_of_select_section h data D label fields :
  h !! data = Some (ODataFrame D) →
  frame_of (select_section data label fields) h = selectSection D label fields.
Proof.
  intros Hd. unfold frame_of.
  destruct (run_select_section h data D label fields Hd) as (hx & -> & Hview).
  destruct (selectSection D label fields) as [view|e]; [|done].
  destruct (Hview view eq_refl) as [_ Hl]. by rewrite (run_frame_at _ _ view).
Qed.

Lemma bind_mret {A} (m : py A) (h : heap) : (a ← m; mret a) h = m h.
Proof. rewrite run_bind. by destruct (m h) as [[a|e] h']. Qed.

(** The three tables that [xai_powered_analytics_dashboard.py] hands to
    its bar and line charts are the section views of their labels. *)
Lemma sections_are_section_views h data D :
  h !! data = Some (ODataFrame D) →
  frame_of (xai_powered_analytics_dashboard.model_interpretability_section data) h
    = selectSection D "Model Interpretability"
        ["Feature"; "SHAP Value"; "LIME Weight"] ∧
  frame_of (xai_powered_analytics_dashboard.key_metrics_section data) h
    = selectSection D "Key Metrics"
        ["Model"; "Accuracy (%)"; "Compliance Rate (%)"].
Proof.
  intros Hd.
  unfold xai_powered_analytics_dashboard.model_interpretability_section,
    xai_powered_analytics_dashboard.key_metrics_section, frame_of.
  rewrite !bind_mret. split; by apply frame_of_select_section.
Qed.

(** The first table of [_1.py] is the section view with no required
    field: the rows are filtered by label and none is dropped for a
    missing value. *)
Lemma script_model_data_view h data D :
  h !! data = Some (ODataFrame D) →
  frame_of (script_1.model_data data) h
  = selectSection D "Model Interpretability" [].
Proof.
  intros Hd. unfold frame_of, script_1.model_data, selectSection.
  rewrite run_bind, (run_df_getitem _ _ D) by done.
  destruct (getitem_column D "Component") as [comp|e]; [|done].
  rewrite run_bind, (run_series_eq_label _ _ comp) by apply lookup_new.
  rewrite (run_df_getitem_bool _ _ D _ (series_eq comp "Model Interpretability"));
    [|by do 2 apply lookup_old|by apply lookup_new].
  rewrite (run_frame_at _ _ _ (lookup_new _ _)).
  cbn [mbind result_bind fst].
  rewrite dropna_Ok by (by intros ? ?%not_elem_of_nil).
  destruct (getitem_mask D _) as [cs rs]. simpl. by rewrite filter_all.
Qed.

(** The metrics table of [_1.py] is not filtered by label: a row of
    another component that has both metrics stays in it. *)
Example script_metrics_data_any_component :
  frame_of (script_1.metrics_data 0) [ODataFrame script_table]
  = Ok script_table.
Proof. vm_refl. Qed.

(** ** The Data Sources section *)

Lemma run_data_sources_section h data D :
  h !! data = Some (ODataFrame D) →
  ∃ hx,
    xai_powered_analytics_dashboard.data_sources_section data h
    = (match selectSection D "Data Sources"
               ["Source"; "Percentage Contribution (%)"] with
       | Ok V => Ok (length h + 4, length h + 5, length (rows V))
       | Raise e => Raise e
       end, (h ++ hx)%list) ∧
    ∀ V, selectSection D "Data Sources"
           ["Source"; "Percentage Contribution (%)"] = Ok V →
         (h ++ hx)%list !! (length h + 4)
           = Some (OSeries (column_of (rows V) "Source")) ∧
         (h ++ hx)%list !! (length h + 5)
           = Some (OSeries (column_of (rows V) "Percentage Contribution (%)")).
Proof.
  intros Hd.
  destruct (run_select_section h data D "Data Sources"
              ["Source"; "Percentage Contribution (%)"] Hd) as (hx & Hrun & Hview).
  unfold xai_powered_analytics_dashboard.data_sources_section.
  rewrite run_bind, Hrun.
  destruct (selectSection D _ _) as [V|e] eqn:Hsel; [|by exists hx].
  destruct (Hview V eq_refl) as [Hlen HV].
  apply selectSection_Ok_inv in Hsel as (HC & HF & HVeq).
  assert (columns V = columns D) as Hcols by (by rewrite HVeq).
  assert (length (h ++ hx)%list = length h + 4) as Hl4
    by (rewrite length_app; lia).
  rewrite run_bind, (run_df_getitem _ _ V) by done.
  rewrite getitem_column_Ok by (rewrite Hcols; apply HF; compute_done).
  rewrite run_bind, (run_df_getitem _ _ V) by (by apply lookup_old).
  rewrite getitem_column_Ok by (rewrite Hcols; apply HF; compute_done).
  rewrite !length_app, Hlen. simpl.
  replace (length h + 4 + 1) with (length h + 5) by lia.
  assert (∀ o1 o2, ((h ++ hx) ++ [o1] ++ [o2])%list !! (length h + 4) = Some o1)
    as Hfour.
  { intros o1 o2. rewrite lookup_app_r by lia.
    by replace (length h + 4 - length (h ++ hx)%list) with 0 by lia. }
  assert (∀ o1 o2, ((h ++ hx) ++ [o1] ++ [o2])%list !! (length h + 5) = Some o2)
    as Hfive.
  { intros o1 o2. rewrite lookup_app_r by lia.
    by replace (length h + 5 - length (h ++ hx)%list) with 1 by lia. }
  rewrite run_bind,
    (run_series_len _ _ (column_of (rows V) "Source"))
    by (rewrite <-app_assoc; apply Hfour).
  assert (length (column_of (rows V) "Source") = length (rows V)) as ->
    by apply length_fmap.
  eexists (hx ++ [_; _])%list. rewrite <-!app_assoc. split; [done|].
  intros ? [= <-]. rewrite app_assoc. split; [apply Hfour | apply Hfive].
Qed.

(** C10. The labels and the sizes handed to the pie chart are columns of
    one view: they have the same length, which is also the number of
    colours asked for, and at each position they hold the [Source] and the
    [Percentage Contribution (%)] of the same record. *)
Theorem pie_labels_sizes_aligned (h h' : heap) (data labels sizes : ref)
    (n : nat) (D : DataFrame) :
  h !! data = Some (ODataFrame D) →
  xai_powered_analytics_dashboard.data_sources_section data h
    = (Ok (labels, sizes, n), h') →
  ∃ (ls ss : Series value) (V : DataFrame),
    selectSection D "Data Sources" ["Source"; "Percentage Contribution (%)"]
      = Ok V ∧
    h' !! labels = Some (OSeries ls) ∧ h' !! sizes = Some (OSeries ss) ∧
    length ls = length ss ∧ n = length ls ∧
    ∀ i lab, ls !! i = Some lab →
      ∃ ir, rows V !! i = Some ir ∧ ir ∈ rows D ∧
            lab = (ir.1, field ir.2 "Source") ∧
            ss !! i = Some (ir.1, field ir.2 "Percentage Contribution (%)").
Proof.
  intros Hd Hrun.
  destruct (run_data_sources_section h data D Hd) as (hx & Hrun' & Hview).
  rewrite Hrun in Hrun'.
  destruct (selectSection D _ _) as [V|e] eqn:Hsel; [|done].
  injection Hrun' as -> -> -> ->. destruct (Hview V eq_refl) as [Hls Hss].
  exists (column_of (rows V) "Source"),
    (column_of (rows V) "Percentage Contribution (%)"), V.
  unfold column_of. rewrite !length_fmap. repeat split; try done.
  intros i lab Hi. rewrite list_lookup_fmap in Hi.
  destruct (rows V !! i) as [ir|] eqn:Hir; [|done]. injection Hi as <-.
  exists ir. rewrite list_lookup_fmap, Hir. repeat split; try done.
  apply selectSection_Ok_inv in Hsel as (_ & _ & ->). simpl in Hir.
  apply list_elem_of_lookup_2 in Hir.
  by apply elem_of_section_rows in Hir as [? _].
Qed.

Lemma pie_labels_sizes_aligned_witness :
  ∃ (ls ss : Series value) (V : DataFrame),
    selectSection sample "Data Sources" ["Source"; "Percentage Contribution (%)"]
      = Ok V ∧
    [ODataFrame sample; OSeries (column_of sample_rows "Component");
     OMask (series_eq (column_of sample_rows "Component") "Data Sources");
     ODataFrame (mkDataFrame sample_columns (sample_at [1; 2]));
     ODataFrame (mkDataFrame sample_columns (sample_at [1; 2]));
     OSeries (column_of (sample_at [1; 2]) "Source");
     OSeries (column_of (sample_at [1; 2]) "Percentage Contribution (%)")]
      !! 5 = Some (OSeries ls) ∧
    [ODataFrame sample; OSeries (column_of sample_rows "Component");
     OMask (series_eq (column_of sample_rows "Component") "Data Sources");
     ODataFrame (mkDataFrame sample_columns (sample_at [1; 2]));
     ODataFrame (mkDataFrame sample_columns (sample_at [1; 2]));
     OSeries (column_of (sample_at [1; 2]) "Source");
     OSeries (column_of (sample_at [1; 2]) "Percentage Contribution (%)")]
      !! 6 = Some (OSeries ss) ∧
    length ls = length ss ∧ 2 = length ls ∧
    ∀ i lab, ls !! i = Some lab →
      ∃ ir, rows V !! i = Some ir ∧ ir ∈ rows sample ∧
            lab = (ir.1, field ir.2 "Source") ∧
            ss !! i = Some (ir.1, field ir.2 "Percentage Contribution (%)").
Proof.
  apply (pie_labels_sizes_aligned [ODataFrame sample] _ 0 5 6 2 sample).
  - reflexivity.
  - vm_refl.
Defined.

(** ** A section with no record *)






(** The pie chart accepts the two sizes of [sample], 40 and 60. *)
Example sample_pie_drawn :
  (xai_powered_analytics_dashboard.data_sources_pie 0 [ODataFrame sample]).1
  = Ok (Some (Ok ())).
Proof. vm_refl. Qed.

(** ** The loaded table is only read *)

(** C9. Column selection, mask indexing, [dropna] and both pivots leave
    the table they are applied to as it was; so do the four sections, run
    one after the other as [main] does, and the script [_1.py]: each
    section finds under [data] the table that was loaded. *)
Theorem dataset_never_mutated (h : heap) (data : ref) (D : DataFrame) :
  h !! data = Some (ODataFrame D) →
  ((∀ c, (df_getitem data c h).2 !! data = Some (ODataFrame D)) ∧
   (∀ mask, (df_getitem_bool data mask h).2 !! data = Some (ODataFrame D)) ∧
   (∀ subset, (df_dropna data subset h).2 !! data = Some (ODataFrame D)) ∧
   (∀ values index,
      (df_pivot_table_first data values index h).2 !! data
      = Some (ODataFrame D)) ∧
   (∀ index cols,
      (df_pivot_table_size data index cols h).2 !! data
      = Some (ODataFrame D))) ∧
  (let h1 := (xai_powered_analytics_dashboard.model_interpretability_section
                data h).2 in
   let h2 := (xai_powered_analytics_dashboard.data_sources_section data h1).2 in
   let h3 := (xai_powered_analytics_dashboard.key_metrics_section data h2).2 in
   let h4 := (xai_powered_analytics_dashboard.real_world_scenario_section
                data h3).2 in
   h1 !! data = Some (ODataFrame D) ∧ h2 !! data = Some (ODataFrame D) ∧
   h3 !! data = Some (ODataFrame D) ∧ h4 !! data = Some (ODataFrame D)) ∧
  (xai_powered_analytics_dashboard.main data h).2 !! data
    = Some (ODataFrame D) ∧
  (script_1.script data h).2 !! data = Some (ODataFrame D).
Proof.
  intros Hd.
  assert (∀ A (m : py A) h0, allocates_only m →
            h0 !! data = Some (ODataFrame D) →
            (m h0).2 !! data = Some (ODataFrame D)) as Hkeep.
  { intros A m h0 Hm Hh0. exact (prefix_lookup_object _ _ _ _ (Hm h0) Hh0). }
  split; [|split; [|split]].
  - repeat split; intros; apply Hkeep; eauto with store.
  - cbv zeta. repeat split; repeat (apply Hkeep; eauto with store).
  - apply Hkeep; [apply allocates_only_main | done].
  - apply Hkeep; [apply allocates_only_script | done].
Qed.

Lemma dataset_never_mutated_witness :
  [ODataFrame sample] !! 0 = Some (ODataFrame sample) ∧
  (xai_powered_analytics_dashboard.main 0 [ODataFrame sample]).2 !! 0
    = Some (ODataFrame sample) ∧
  (script_1.script 0 [ODataFrame sample]).2 !! 0 = Some (ODataFrame sample).
Proof.
  split; [reflexivity|].
  exact (proj2 (proj2
           (dataset_never_mutated [ODataFrame sample] 0 sample eq_refl))).
Defined.

(** ** Seeding the scenario sliders *)

Lemma MAX_SAFE_INTEGER_value : MAX_SAFE_INTEGER = 9007199254740991%Z.
Proof. reflexivity. Qed.




(** Whatever slider is seeded shows the integer part of its default. *)
Lemma seed_slider_value (factor default : value) (w : Slider) :
  seed_slider factor default = Ok w → py_int default = Ok (slider_value w).
Proof.
  unfold seed_slider. destruct (py_int default) as [n|e]; [|done].
  cbn [mbind result_bind]. destruct factor; try done. unfold st_slider.
  case_bool_decide; [|done]. by intros [= <-].
Qed.

(** The three sliders of [_1.py] have fixed defaults within the bounds. *)
Lemma script_sliders :
  script_1.loan_to_income_ratio
    = Ok (mkSlider "Loan-to-Income Ratio" 0 100 35) ∧
  script_1.payment_history
    = Ok (mkSlider "Payment History Impact" 0 100 30) ∧
  script_1.credit_utilization
    = Ok (mkSlider "Credit Utilization Impact" 0 100 20).
Proof. repeat split; vm_refl. Qed.

(** ** The risk-score table: first value per factor *)

Lemma foldl_first_step_lookup values index rs (t0 : gmap value value) k :
  foldl (first_step values index) t0 rs !! k
  = match t0 !! k with
    | Some v => Some v
    | None => first_valued index values k rs
    end.
Proof.
  revert t0. induction rs as [|ir rs IH]; intros t0.
  { simpl. unfold first_valued. destruct (t0 !! k), (isna k); done. }
  cbn [foldl]. rewrite IH. unfold first_step, first_valued.
  rewrite filter_cons.
  destruct (isna (field ir.2 index)) eqn:Hk; simpl.
  { destruct (t0 !! k); [done|]. destruct (isna k) eqn:Hnk; [done|].
    rewrite decide_False; [done|]. intros [Heq _]. congruence. }
  destruct (isna (field ir.2 values)) eqn:Hv; simpl.
  { destruct (t0 !! k); [done|]. destruct (isna k); [done|].
    rewrite decide_False; [done|]. intros [_ ?]. congruence. }
  destruct (decide (field ir.2 index = k)) as [<-|Hne].
  - destruct (t0 !! field ir.2 index) as [v|] eqn:Ht0; [by rewrite Ht0|].
    rewrite lookup_insert_eq, Hk. by rewrite decide_True.
  - assert (match t0 !! field ir.2 index with
            | Some _ => t0
            | None => <[field ir.2 index:=field ir.2 values]> t0
            end !! k = t0 !! k) as ->.
    { destruct (t0 !! field ir.2 index); [done|]. by rewrite lookup_insert_ne. }
    destruct (t0 !! k); [done|]. destruct (isna k); [done|].
    rewrite decide_False; [done|]. by intros [? _].
Qed.

(** What the table holds on any table with the two columns: per key, the
    first value that is not missing. *)
Lemma pivot_table_first_lookup (V : DataFrame) (values index : string)
    (t : gmap value value) (k : value) :
  pivot_table_first V values index = Ok t →
  t !! k = first_valued index values k (rows V).
Proof.
  unfold pivot_table_first. repeat case_bool_decide; try done.
  intros [= <-]. by rewrite foldl_first_step_lookup, lookup_empty.
Qed.

Lemma first_valued_bearing index values k rs :
  (∀ ir, ir ∈ rs → isna (field ir.2 index) = false ∧
                   isna (field ir.2 values) = false) →
  first_valued index values k rs = first_bearing index values k rs.
Proof.
  intros Hrs. unfold first_valued, first_bearing.
  assert (filter (λ ir : nat * record,
                    field ir.2 index = k ∧ isna (field ir.2 values) = false) rs
          = filter (λ ir : nat * record, field ir.2 index = k) rs) as ->.
  { induction rs as [|ir rs IH]; [done|]. rewrite !filter_cons, IH.
    - destruct (Hrs ir) as [_ Hv]; [left|].
      destruct (decide (field ir.2 index = k)).
      + by rewrite decide_True.
      + rewrite decide_False; [done|]. by intros [? _].
    - intros ir' Hir'. apply Hrs. by right. }
  destruct (isna k) eqn:Hk; [|done].
  destruct (filter _ rs) as [|ir ?] eqn:Hf; [done|].
  assert (ir ∈ filter (λ ir : nat * record, field ir.2 index = k) rs)
    as [Heq Hir]%list_elem_of_filter by (rewrite Hf; left).
  destruct (Hrs ir Hir) as [Hi _]. congruence.
Qed.

(** C6. On a view (no row lacks the row field or the value field), the
    table is a function of the rows in their order: a second call, made
    in the store the first call left, returns a table equal to the first,
    and the table holds under each key the value field of the first row
    that bears the key. *)
Theorem pivotFirst_deterministic_first (h : heap) (view : ref) (V : DataFrame)
    (rowField valueField : string) :
  h !! view = Some (ODataFrame V) →
  rowField ∈ columns V → valueField ∈ columns V →
  (∀ ir, ir ∈ rows V → isna (field ir.2 rowField) = false ∧
                       isna (field ir.2 valueField) = false) →
  ∃ (l1 l2 : ref) (h1 h2 : heap) (t : gmap value value),
    df_pivot_table_first view valueField rowField h = (Ok l1, h1) ∧
    df_pivot_table_first view valueField rowField h1 = (Ok l2, h2) ∧
    h2 !! l1 = Some (OFirstTable t) ∧ h2 !! l2 = Some (OFirstTable t) ∧
    ∀ k, t !! k = first_bearing rowField valueField k (rows V).
Proof.
  intros Hv Hrow Hval Hview.
  assert (pivot_table_first V valueField rowField
          = Ok (foldl (first_step valueField rowField) ∅ (rows V))) as Hpt.
  { unfold pivot_table_first. by rewrite !bool_decide_eq_true_2. }
  eexists _, _, _, _, _. split; [|split; [|split; [|split]]].
  - rewrite (run_df_pivot_table_first _ _ V) by done. by rewrite Hpt.
  - rewrite (run_df_pivot_table_first _ _ V) by (by apply lookup_old).
    by rewrite Hpt.
  - apply lookup_old, lookup_new.
  - apply lookup_new.
  - intros k. rewrite (pivot_table_first_lookup V valueField rowField _ k Hpt).
    by apply first_valued_bearing.
Qed.

Lemma pivotFirst_deterministic_first_witness :
  [ODataFrame sample_scenario] !! 0 = Some (ODataFrame sample_scenario) ∧
  ("Risk Factor" ∈ columns sample_scenario) ∧
  ("Risk Score Contribution (%)" ∈ columns sample_scenario) ∧
  (∀ ir, ir ∈ rows sample_scenario →
         isna (field ir.2 "Risk Factor") = false ∧
         isna (field ir.2 "Risk Score Contribution (%)") = false) ∧
  ∃ (l1 l2 : ref) (h1 h2 : heap) (t : gmap value value),
    df_pivot_table_first 0 "Risk Score Contribution (%)" "Risk Factor"
      [ODataFrame sample_scenario] = (Ok l1, h1) ∧
    df_pivot_table_first 0 "Risk Score Contribution (%)" "Risk Factor" h1
      = (Ok l2, h2) ∧
    h2 !! l1 = Some (OFirstTable t) ∧ h2 !! l2 = Some (OFirstTable t) ∧
    ∀ k, t !! k
         = first_bearing "Risk Factor" "Risk Score Contribution (%)" k
             (rows sample_scenario).
Proof.
  assert ("Risk Factor" ∈ columns sample_scenario) as Hrow by compute_done.
  assert ("Risk Score Contribution (%)" ∈ columns sample_scenario) as Hval
    by compute_done.
  assert (∀ ir, ir ∈ rows sample_scenario →
                isna (field ir.2 "Risk Factor") = false ∧
                isna (field ir.2 "Risk Score Contribution (%)") = false)
    as Hview by (apply Forall_forall; compute_done).
  split; [reflexivity|]. split; [exact Hrow|]. split; [exact Hval|].
  split; [exact Hview|].
  exact (pivotFirst_deterministic_first [ODataFrame sample_scenario] 0
           sample_scenario "Risk Factor" "Risk Score Contribution (%)"
           eq_refl Hrow Hval Hview).
Defined.

(** On a table that is no view the first row of a key may lack the value:
    the table then holds the first value present, not the missing one. *)
Example pivot_table_first_skips_missing :
  pivot_table_first
    (mkDataFrame ["Risk Factor"; "Risk Score Contribution (%)"]
       [(0, row [("Risk Factor", VStr "Debt")]);
        (1, row [("Risk Factor", VStr "Debt");
                 ("Risk Score Contribution (%)", num 5 1)])])
    "Risk Score Contribution (%)" "Risk Factor"
  = Ok {[ VStr "Debt" := num 5 1 ]}.
Proof. vm_refl. Qed.

(** ** The count table of the correlation heatmap *)

Section count_facts.
Variables index cols : string.
Implicit Types (m : gmap (value * value) nat) (k : value * value).
Implicit Types (rs : list (nat * record)) (ps : list (value * value)).

Lemma size_step_keyed m ir :
  keyed index cols ir →
  size_step index cols m ir
  = <[(field ir.2 index, field ir.2 cols) :=
        S (default 0 (m !! (field ir.2 index, field ir.2 cols)))]> m.
Proof. intros [Hi Hc]. unfold size_step. simpl. by rewrite Hi, Hc. Qed.

Lemma size_step_not_keyed m ir :
  ¬ keyed index cols ir → size_step index cols m ir = m.
Proof.
  intros Hn. unfold size_step. simpl.
  destruct (isna (field ir.2 index)) eqn:Hi; [done|].
  destruct (isna (field ir.2 cols)) eqn:Hc; [done|]. by destruct Hn.
Qed.

Lemma in_group_keyed k ir : in_group index cols k ir → keyed index cols ir.
Proof. intros (<- & ? & ?). by split. Qed.

Lemma in_group_own ir :
  keyed index cols ir →
  in_group index cols (field ir.2 index, field ir.2 cols) ir.
Proof. intros [? ?]. by split. Qed.

Lemma group_size_cons k ir rs :
  group_size index cols k (ir :: rs)
  = (if decide (in_group index cols k ir) then 1 else 0)
    + group_size index cols k rs.
Proof. unfold group_size. rewrite filter_cons. by case_decide. Qed.

(** An entry of the size map after the rows [rs]. *)
Lemma foldl_size_step_lookup rs m k :
  foldl (size_step index cols) m rs !! k
  = if decide (group_size index cols k rs = 0) then m !! k
    else Some (default 0 (m !! k) + group_size index cols k rs).
Proof.
  revert m. induction rs as [|ir rs IH]; intros m; [done|].
  cbn [foldl]. rewrite IH, group_size_cons.
  destruct (decide (keyed index cols ir)) as [Hk|Hk]; cycle 1.
  { rewrite size_step_not_keyed by done.
    rewrite (decide_False (P := in_group index cols k ir)); [done|].
    intros ?. by eapply Hk, in_group_keyed. }
  rewrite size_step_keyed by done.
  destruct (decide (in_group index cols k ir)) as [Hg|Hg].
  - destruct Hg as (Hg & _). rewrite Hg, lookup_insert_eq. simpl.
    repeat case_decide; try lia; f_equal; lia.
  - rewrite lookup_insert_ne; [done|]. intros Heq. apply Hg.
    rewrite <-Heq. by apply in_group_own.
Qed.

Lemma sum_over_insert_not_in ps m k v :
  k ∉ ps → sum_over ps (<[k := v]> m) = sum_over ps m.
Proof.
  intros Hk. unfold sum_over. f_equal. apply list_fmap_ext.
  intros i p Hp. rewrite lookup_insert_ne; [done|]. intros ->.
  apply Hk. by eapply list_elem_of_lookup_2.
Qed.

Lemma sum_over_cons p ps m :
  sum_over (p :: ps) m = default 0 (m !! p) + sum_over ps m.
Proof. done. Qed.

Lemma sum_over_empty ps : sum_over ps ∅ = 0.
Proof.
  induction ps as [|p ps IH]; [done|].
  by rewrite sum_over_cons, lookup_empty, IH.
Qed.

Lemma sum_over_insert ps m k v :
  NoDup ps → k ∈ ps →
  sum_over ps (<[k := v]> m) + default 0 (m !! k) = sum_over ps m + v.
Proof.
  induction 1 as [|p ps Hp Hnd IH]; [by intros ?%not_elem_of_nil|].
  rewrite !sum_over_cons. intros [->|Hk]%elem_of_cons.
  - rewrite (sum_over_insert_not_in ps m p v Hp), lookup_insert_eq.
    simpl. lia.
  - specialize (IH Hk). rewrite lookup_insert_ne by (by intros ->). lia.
Qed.

(** Every row with both keys adds one to the sum of the entries. *)
Lemma sum_over_foldl_size_step ps rs m :
  NoDup ps →
  (∀ ir, ir ∈ rs → keyed index cols ir →
         (field ir.2 index, field ir.2 cols) ∈ ps) →
  sum_over ps (foldl (size_step index cols) m rs)
  = sum_over ps m + length (filter (keyed index cols) rs).
Proof.
  intros Hnd. revert m. induction rs as [|ir rs IH]; intros m Hin.
  { simpl. lia. }
  cbn [foldl]. rewrite IH by (intros ? ?; apply Hin; by right).
  rewrite filter_cons.
  destruct (decide (keyed index cols ir)) as [Hk|Hk].
  - rewrite size_step_keyed by done.
    pose proof (sum_over_insert ps m _
                  (S (default 0 (m !! (field ir.2 index, field ir.2 cols))))
                  Hnd (Hin ir ltac:(left) Hk)).
    simpl. lia.
  - by rewrite size_step_not_keyed.
Qed.

Lemma NoDup_pairs (l1 l2 : list value) :
  NoDup l1 → NoDup l2 → NoDup (cprod l1 l2).
Proof.
  intros H1 H2. rewrite list_cprod_list_prod.
  induction H1 as [|a l1 Ha _ IH]; [constructor|]. simpl.
  apply NoDup_app. split; [|split; [|done]].
  - change (map (λ y, (a, y)) l2) with ((λ y, (a, y)) <$> l2).
    apply NoDup_fmap_2; [|done]. by intros ?? [= ->].
  - intros [x y] Hxy.
    change (map (λ y, (a, y)) l2) with ((λ y, (a, y)) <$> l2) in Hxy.
    apply list_elem_of_fmap in Hxy as (? & [= -> ->] & _).
    rewrite <-list_cprod_list_prod, list_elem_of_cprod. simpl. by intros [? _].
Qed.

Lemma elem_of_size_map rs k :
  k ∈ dom (foldl (size_step index cols) ∅ rs) ↔
  ∃ ir, ir ∈ rs ∧ in_group index cols k ir.
Proof.
  rewrite elem_of_dom, foldl_size_step_lookup, lookup_empty. unfold group_size.
  case_decide as Hz; simpl.
  - split; [by intros [? ?]|]. intros (ir & Hir & Hg).
    assert (ir ∈ filter (in_group index cols k) rs) as Hf
      by (by apply list_elem_of_filter).
    destruct (filter _ rs); [by apply not_elem_of_nil in Hf | done].
  - split; [|by eauto]. intros _.
    destruct (filter _ rs) as [|ir ?] eqn:Hf; [done|].
    assert (ir ∈ filter (in_group index cols k) rs) as [? ?]%list_elem_of_filter
      by (rewrite Hf; left).
    eauto.
Qed.

(** The cells of the table add up to the number of rows that have both
    keys. *)
Lemma cell_total_unstack rs :
  cell_total (unstack (foldl (size_step index cols) ∅ rs))
  = length (filter (keyed index cols) rs).
Proof.
  unfold cell_total, unstack, cell. simpl.
  change (sum_list _) with
    (sum_over
       (cprod (elements (set_map (D:=gset value) fst
                           (dom (foldl (size_step index cols) ∅ rs))))
              (elements (set_map (D:=gset value) snd
                           (dom (foldl (size_step index cols) ∅ rs)))))
       (foldl (size_step index cols) ∅ rs)).
  rewrite sum_over_foldl_size_step.
  - by rewrite sum_over_empty.
  - apply NoDup_pairs; apply NoDup_elements.
  - intros ir Hir Hk. apply list_elem_of_cprod. simpl.
    rewrite !elem_of_elements, !elem_of_map.
    assert ((field ir.2 index, field ir.2 cols)
              ∈ dom (foldl (size_step index cols) ∅ rs)) as Hd
      by (apply elem_of_size_map; eauto using in_group_own).
    split; eexists; (split; [|exact Hd]); done.
Qed.
End count_facts.

Lemma pivot_table_size_Ok (V : DataFrame) (index cols : string) (t : CountTable) :
  pivot_table_size V index cols = Ok t →
  index ∈ columns V ∧ cols ∈ columns V ∧
  t = unstack (foldl (size_step index cols) ∅ (rows V)).
Proof.
  unfold pivot_table_size. repeat case_bool_decide; try done.
  by intros [= <-].
Qed.

(** On any table with the two columns, the cells add up to the number of
    rows that have both keys; rows lacking one are in no cell. *)
Lemma pivot_table_size_total (V : DataFrame) (index cols : string)
    (t : CountTable) :
  pivot_table_size V index cols = Ok t →
  cell_total t = length (filter (keyed index cols) (rows V)).
Proof.
  intros (_ & _ & ->)%pivot_table_size_Ok. apply cell_total_unstack.
Qed.

(** C5, as stated, fails: in the table of the scenario view of [sample]
    the factor "Loan-to-Income Ratio" and the correlation "Low" are both
    labels, no record has the two together, and the cell is missing (NaN)
    rather than zero. *)
Lemma pivotCount_absent_pair_is_missing :
  ∃ t, pivot_table_size sample_scenario "Risk Factor" "Correlation" = Ok t ∧
       VStr "Loan-to-Income Ratio" ∈ row_labels t ∧
       VStr "Low" ∈ col_labels t ∧
       count_pair "Risk Factor" "Correlation"
         (VStr "Loan-to-Income Ratio") (VStr "Low") (rows sample_scenario) = 0 ∧
       cell t (VStr "Loan-to-Income Ratio") (VStr "Low") = None ∧
       cell t (VStr "Loan-to-Income Ratio") (VStr "Low") ≠ Some 0.
Proof.
  exists (unstack (foldl (size_step "Risk Factor" "Correlation") ∅
                     (rows sample_scenario))).
  assert (cell (unstack (foldl (size_step "Risk Factor" "Correlation") ∅
                           (rows sample_scenario)))
               (VStr "Loan-to-Income Ratio") (VStr "Low") = None) as Hcell
    by vm_refl.
  split; [vm_refl|]. split; [compute_done|]. split; [compute_done|].
  split; [vm_refl|]. split; [exact Hcell|]. by rewrite Hcell.
Qed.

(** C5, amended. On a view (no row lacks the row field or the column
    field) the cells add up to the number of records; a cell holds the
    number of records that share its pair of labels when there is one, and
    is missing (NaN) when there is none; the labels are the values that
    occur in the two fields. *)
Theorem pivotCount_cells (V : DataFrame) (rowField colField : string)
    (t : CountTable) :
  pivot_table_size V rowField colField = Ok t →
  (∀ ir, ir ∈ rows V → keyed rowField colField ir) →
  cell_total t = length (rows V) ∧
  (∀ r c, cell t r c
          = if decide (count_pair rowField colField r c (rows V) = 0)
            then None
            else Some (count_pair rowField colField r c (rows V))) ∧
  (∀ r, r ∈ row_labels t ↔ ∃ ir, ir ∈ rows V ∧ field ir.2 rowField = r) ∧
  (∀ c, c ∈ col_labels t ↔ ∃ ir, ir ∈ rows V ∧ field ir.2 colField = c).
Proof.
  intros Ht Hview. pose proof (pivot_table_size_total _ _ _ _ Ht) as Htotal.
  apply pivot_table_size_Ok in Ht as (_ & _ & ->).
  assert (∀ k ir, ir ∈ rows V →
            in_group rowField colField k ir ↔
            field ir.2 rowField = k.1 ∧ field ir.2 colField = k.2) as Hgroup.
  { intros [r c] ir Hir. destruct (Hview ir Hir) as [Hr Hc]. unfold in_group.
    simpl. split; [by intros ([= -> ->] & _)|]. by intros [<- <-]. }
  split; [|split; [|split]].
  - by rewrite Htotal, filter_all.
  - intros r c. unfold cell, unstack. simpl.
    rewrite foldl_size_step_lookup, lookup_empty. simpl.
    assert (group_size rowField colField (r, c) (rows V)
            = count_pair rowField colField r c (rows V)) as ->; [|done].
    unfold group_size, count_pair. f_equal. apply filter_ext_in.
    intros ir Hir. by rewrite Hgroup.
  - intros r. unfold unstack. simpl. rewrite elem_of_map. split.
    + intros ([r' c] & -> & (ir & Hir & Hg)%elem_of_size_map).
      apply Hgroup in Hg as [? _]; [|done]. eauto.
    + intros (ir & Hir & <-). exists (field ir.2 rowField, field ir.2 colField).
      split; [done|]. apply elem_of_size_map. exists ir. split; [done|].
      by apply in_group_own, Hview.
  - intros c. unfold unstack. simpl. rewrite elem_of_map. split.
    + intros ([r c'] & -> & (ir & Hir & Hg)%elem_of_size_map).
      apply Hgroup in Hg as [_ ?]; [|done]. eauto.
    + intros (ir & Hir & <-). exists (field ir.2 rowField, field ir.2 colField).
      split; [done|]. apply elem_of_size_map. exists ir. split; [done|].
      by apply in_group_own, Hview.
Qed.

Lemma pivotCount_cells_witness :
  pivot_table_size sample_scenario "Risk Factor" "Correlation"
  = Ok (unstack (foldl (size_step "Risk Factor" "Correlation") ∅
                   (rows sample_scenario))) ∧
  (∀ ir, ir ∈ rows sample_scenario → keyed "Risk Factor" "Correlation" ir) ∧
  cell_total (unstack (foldl (size_step "Risk Factor" "Correlation") ∅
                         (rows sample_scenario)))
  = length (rows sample_scenario).
Proof.
  assert (pivot_table_size sample_scenario "Risk Factor" "Correlation"
          = Ok (unstack (foldl (size_step "Risk Factor" "Correlation") ∅
                           (rows sample_scenario)))) as Ht by vm_refl.
  assert (∀ ir, ir ∈ rows sample_scenario
                → keyed "Risk Factor" "Correlation" ir) as Hview
    by (apply Forall_forall; compute_done).
  split; [exact Ht|]. split; [exact Hview|].
  exact (proj1 (pivotCount_cells sample_scenario "Risk Factor" "Correlation"
                  _ Ht Hview)).
Defined.

(** The heatmap of [_1.py] is drawn from the rows that [dropna] leaves:
    its cells add up to the number of those rows. *)
Lemma script_heatmap_total (data : DataFrame) (scenario : DataFrame)
    (t : CountTable) :
  dropna data (Some ["Risk Factor"; "Correlation"]) = Ok scenario →
  pivot_table_size scenario "Risk Factor" "Correlation" = Ok t →
  cell_total t = length (rows scenario).
Proof.
  intros ->%dropna_Ok_inv Ht. rewrite (pivot_table_size_total _ _ _ _ Ht).
  f_equal. apply filter_all. intros ir Hir.
  apply list_elem_of_filter in Hir as [Hc _].
  pose proof (proj1 (complete_on_spec _ _) Hc) as Hall.
  split; apply Hall; compute_done.
Qed.


(** ** More on the section view *)

Lemma filter_comm {A} (P Q : A → Prop) `{!∀ x, Decision (P x)}
    `{!∀ x, Decision (Q x)} (l : list A) :
  filter P (filter Q l) = filter Q (filter P l).
Proof. rewrite !list_filter_filter. apply list_filter_iff. tauto. Qed.

(** X1. The two steps of the section view may be taken in either order:
    on a table with a [Component] column, dropping the incomplete rows
    first and filtering by label afterwards gives the same view, or the
    same [KeyError]. *)
Theorem selectSection_dropna_first (D : DataFrame) (L : string) (F : list string) :
  "Component" ∈ columns D →
  selectSection D L F
  = (d ← dropna D (Some F);
     component ← getitem_column d "Component";
     mret (getitem_mask d (series_eq component L))).
Proof.
  intros HC.
  destruct (filter (λ c, c ∉ columns D) F) as [|c ?] eqn:Hf.
  - assert (F ⊆ columns D) as HF.
    { intros c Hc. destruct (decide (c ∈ columns D)); [done|].
      by destruct (filter_nil_not_elem_of _ _ c Hf). }
    rewrite selectSection_Ok, dropna_Ok by done. cbn [mbind result_bind].
    rewrite getitem_column_Ok by done. cbn [mbind result_bind mret result_ret].
    unfold getitem_mask. cbn [rows columns]. rewrite select_rows_series_eq.
    unfold section_rows. f_equal. f_equal. apply filter_comm.
  - assert (c ∈ filter (λ c, c ∉ columns D) F) as [Hn Hc]%list_elem_of_filter
      by (rewrite Hf; left).
    rewrite (selectSection_Raise D L F c), (dropna_Raise D F c) by done.
    by rewrite bool_decide_eq_true_2.
Qed.

Lemma selectSection_dropna_first_witness :
  ("Component" ∈ columns sample) ∧
  selectSection sample "Key Metrics" ["Accuracy (%)"]
  = (d ← dropna sample (Some ["Accuracy (%)"]);
     component ← getitem_column d "Component";
     mret (getitem_mask d (series_eq component "Key Metrics"))).
Proof.
  assert ("Component" ∈ columns sample) as HC by compute_done.
  split; [exact HC|].
  exact (selectSection_dropna_first sample "Key Metrics" ["Accuracy (%)"] HC).
Defined.

(** X2. A section view is its own section view: selecting again with the
    same label and fields returns the same table. *)
Theorem selectSection_idempotent (D : DataFrame) (L : string)
    (F : list string) (V : DataFrame) :
  selectSection D L F = Ok V → selectSection V L F = Ok V.
Proof.
  intros (HC & HF & ->)%selectSection_Ok_inv.
  rewrite selectSection_Ok by done. cbn [columns]. f_equal. f_equal.
  unfold section_rows at 1. cbn [rows].
  rewrite !filter_all; [done| |].
  - intros ir Hir. by apply elem_of_section_rows in Hir as (_ & ? & _).
  - intros ir [_ Hir]%list_elem_of_filter. apply complete_on_spec.
    by apply elem_of_section_rows in Hir as (_ & _ & ?).
Qed.

Lemma selectSection_idempotent_witness :
  selectSection sample "Key Metrics" ["Accuracy (%)"]
  = Ok (mkDataFrame sample_columns (sample_at [3; 5])) ∧
  selectSection (mkDataFrame sample_columns (sample_at [3; 5]))
    "Key Metrics" ["Accuracy (%)"]
  = Ok (mkDataFrame sample_columns (sample_at [3; 5])).
Proof.
  assert (selectSection sample "Key Metrics" ["Accuracy (%)"]
          = Ok (mkDataFrame sample_columns (sample_at [3; 5]))) as H by vm_refl.
  split; [exact H|].
  exact (selectSection_idempotent sample "Key Metrics" ["Accuracy (%)"] _ H).
Defined.

(** X3. Requiring more fields only removes rows: the view for a larger
    set of fields is the view for the smaller set with [dropna] applied
    once more, and so a sublist of it. *)
Theorem selectSection_more_fields (D : DataFrame) (L : string)
    (F G : list string) (V W : DataFrame) :
  selectSection D L F = Ok V → selectSection D L G = Ok W → F ⊆ G →
  dropna V (Some G) = Ok W ∧ rows W `sublist_of` rows V.
Proof.
  intros (_ & _ & ->)%selectSection_Ok_inv (_ & HG & ->)%selectSection_Ok_inv
    HFG.
  assert (section_rows D L G
          = filter (λ ir : nat * record, complete_on G ir.2) (section_rows D L F))
    as Heq.
  { unfold section_rows. symmetry. apply list_filter_filter_l.
    intros ir HcG. apply complete_on_spec. intros c Hc.
    by apply (proj1 (complete_on_spec G ir.2) HcG), HFG. }
  split.
  - rewrite dropna_Ok by done. cbn [columns rows]. by rewrite <-Heq.
  - cbn [rows]. rewrite Heq. apply sublist_filter.
Qed.

Lemma selectSection_more_fields_witness :
  selectSection sample "Key Metrics" []
  = Ok (mkDataFrame sample_columns (sample_at [3; 4; 5])) ∧
  selectSection sample "Key Metrics" ["Accuracy (%)"]
  = Ok (mkDataFrame sample_columns (sample_at [3; 5])) ∧
  ([] ⊆ ["Accuracy (%)"]) ∧
  dropna (mkDataFrame sample_columns (sample_at [3; 4; 5]))
    (Some ["Accuracy (%)"])
  = Ok (mkDataFrame sample_columns (sample_at [3; 5])) ∧
  sample_at [3; 5] `sublist_of` sample_at [3; 4; 5].
Proof.
  assert (selectSection sample "Key Metrics" []
          = Ok (mkDataFrame sample_columns (sample_at [3; 4; 5]))) as HV
    by vm_refl.
  assert (selectSection sample "Key Metrics" ["Accuracy (%)"]
          = Ok (mkDataFrame sample_columns (sample_at [3; 5]))) as HW
    by vm_refl.
  assert ([] ⊆ ["Accuracy (%)"]) as Hsub by compute_done.
  split; [exact HV|]. split; [exact HW|]. split; [exact Hsub|].
  exact (selectSection_more_fields sample "Key Metrics" [] ["Accuracy (%)"]
           _ _ HV HW Hsub).
Defined.

(** X4. The views of two different labels share no record, whatever
    fields each requires. *)
Theorem selectSection_disjoint (D : DataFrame) (L1 L2 : string)
    (F1 F2 : list string) (V1 V2 : DataFrame) (ir : nat * record) :
  selectSection D L1 F1 = Ok V1 → selectSection D L2 F2 = Ok V2 →
  L1 ≠ L2 → ir ∈ rows V1 → ir ∉ rows V2.
Proof.
  intros (_ & _ & ->)%selectSection_Ok_inv (_ & _ & ->)%selectSection_Ok_inv
    Hne (_ & H1 & _)%elem_of_section_rows (_ & H2 & _)%elem_of_section_rows.
  unfold in_section in *. congruence.
Qed.

Lemma selectSection_disjoint_witness :
  selectSection sample "Key Metrics" []
  = Ok (mkDataFrame sample_columns (sample_at [3; 4; 5])) ∧
  selectSection sample "Data Sources" []
  = Ok (mkDataFrame sample_columns (sample_at [1; 2])) ∧
  "Key Metrics" ≠ "Data Sources" ∧
  (∀ ir, ir ∈ sample_at [3] → ir ∈ sample_at [3; 4; 5] ∧ ir ∉ sample_at [1; 2]).
Proof.
  assert (selectSection sample "Key Metrics" []
          = Ok (mkDataFrame sample_columns (sample_at [3; 4; 5]))) as H1
    by vm_refl.
  assert (selectSection sample "Data Sources" []
          = Ok (mkDataFrame sample_columns (sample_at [1; 2]))) as H2
    by vm_refl.
  assert ("Key Metrics" ≠ "Data Sources") as Hne by discriminate.
  split; [exact H1|]. split; [exact H2|]. split; [exact Hne|].
  intros ir Hir.
  assert (ir ∈ sample_at [3; 4; 5]) as Hin.
  { apply list_elem_of_singleton in Hir as ->. left. }
  split; [exact Hin|].
  exact (selectSection_disjoint sample "Key Metrics" "Data Sources" [] []
           _ _ ir H1 H2 Hne Hin).
Defined.

(** X5. The view keeps every column of the dataset, and its rows keep
    their index labels: the labels of the view are a sublist of those of
    the dataset, distinct when those are. *)
Theorem selectSection_columns_index (D : DataFrame) (L : string)
    (F : list string) (V : DataFrame) :
  selectSection D L F = Ok V →
  columns V = columns D ∧
  (rows V).*1 `sublist_of` (rows D).*1 ∧
  (NoDup ((rows D).*1) → NoDup ((rows V).*1)).
Proof.
  intros (_ & _ & ->)%selectSection_Ok_inv. cbn [columns rows].
  assert ((section_rows D L F).*1 `sublist_of` (rows D).*1) as Hsub.
  { apply fmap_sublist. unfold section_rows. etrans; apply sublist_filter. }
  split; [done|]. split; [done|]. intros Hnd. by eapply sublist_NoDup.
Qed.

Lemma selectSection_columns_index_witness :
  selectSection sample "Key Metrics" ["Accuracy (%)"]
  = Ok (mkDataFrame sample_columns (sample_at [3; 5])) ∧
  columns (mkDataFrame sample_columns (sample_at [3; 5])) = columns sample ∧
  (sample_at [3; 5]).*1 `sublist_of` (rows sample).*1 ∧
  (NoDup ((rows sample).*1) → NoDup ((sample_at [3; 5]).*1)).
Proof.
  assert (selectSection sample "Key Metrics" ["Accuracy (%)"]
          = Ok (mkDataFrame sample_columns (sample_at [3; 5]))) as H by vm_refl.
  split; [exact H|].
  exact (selectSection_columns_index sample "Key Metrics" ["Accuracy (%)"] _ H).
Defined.


(** ** More on the pivot tables *)

Lemma first_valued_Some index values k x rs :
  first_valued index values k rs = Some x →
  isna k = false ∧ isna x = false ∧
  ∃ ir, ir ∈ rs ∧ field ir.2 index = k ∧ field ir.2 values = x.
Proof.
  unfold first_valued. destruct (isna k) eqn:Hk; [done|].
  destruct (head _) as [ir|] eqn:Hhead; [|done]. intros [= <-].
  apply head_Some_elem_of, list_elem_of_filter in Hhead as [[? ?] ?].
  split; [done|]. split; [done|]. by exists ir.
Qed.

Lemma first_valued_is_Some index values rs ir :
  ir ∈ rs → isna (field ir.2 index) = false →
  isna (field ir.2 values) = false →
  is_Some (first_valued index values (field ir.2 index) rs).
Proof.
  intros Hir Hk Hv. unfold first_valued. rewrite Hk.
  apply fmap_is_Some, head_is_Some. intros Hnil.
  by eapply (filter_nil_not_elem_of _ _ ir Hnil).
Qed.

Lemma size_foldl_first_step values index rs (t0 : gmap value value) :
  (size (foldl (first_step values index) t0 rs) ≤ size t0 + length rs)%nat.
Proof.
  revert t0. induction rs as [|ir rs IH]; intros t0; [simpl; lia|].
  cbn [foldl length]. etrans; [apply IH|]. unfold first_step.
  destruct (isna _ || isna _); [lia|].
  destruct (t0 !! field ir.2 index) eqn:Hk; [lia|].
  rewrite map_size_insert_None by done. lia.
Qed.

(** X6. On any table with the two columns, the risk-score table holds no
    missing key and no missing value; each entry is the pair of fields of
    some row; every row that has both fields finds its key in the table;
    and the table has no more entries than the table has rows. *)
Theorem pivot_table_first_entries (V : DataFrame) (values index : string)
    (t : gmap value value) :
  pivot_table_first V values index = Ok t →
  (∀ k x, t !! k = Some x →
     isna k = false ∧ isna x = false ∧
     ∃ ir, ir ∈ rows V ∧ field ir.2 index = k ∧ field ir.2 values = x) ∧
  (∀ ir, ir ∈ rows V → isna (field ir.2 index) = false →
         isna (field ir.2 values) = false →
         is_Some (t !! field ir.2 index)) ∧
  (size t ≤ length (rows V))%nat.
Proof.
  intros Ht. split; [|split].
  - intros k x. rewrite (pivot_table_first_lookup V values index t k Ht).
    apply first_valued_Some.
  - intros ir Hir Hk Hv.
    rewrite (pivot_table_first_lookup V values index t _ Ht).
    by apply first_valued_is_Some.
  - unfold pivot_table_first in Ht. repeat case_bool_decide; try done.
    injection Ht as <-. etrans; [apply size_foldl_first_step|].
    by rewrite map_size_empty.
Qed.

Lemma pivot_table_first_entries_witness :
  pivot_table_first sample "Risk Score Contribution (%)" "Risk Factor"
  = Ok (foldl (first_step "Risk Score Contribution (%)" "Risk Factor") ∅
          (rows sample)) ∧
  (size (foldl (first_step "Risk Score Contribution (%)" "Risk Factor") ∅
           (rows sample)) ≤ length (rows sample))%nat.
Proof.
  assert (pivot_table_first sample "Risk Score Contribution (%)" "Risk Factor"
          = Ok (foldl (first_step "Risk Score Contribution (%)" "Risk Factor")
                  ∅ (rows sample))) as Ht by vm_refl.
  split; [exact Ht|].
  exact (proj2 (proj2 (pivot_table_first_entries sample
                         "Risk Score Contribution (%)" "Risk Factor" _ Ht))).
Defined.

(** X7. On any table with the two columns, a cell of the count table that
    is present holds the positive number of rows of its group, under
    labels that are not missing; and every row label and every column
    label has a present cell: the heatmap has no empty row or column. *)
Theorem pivot_table_size_cells (V : DataFrame) (index cols : string)
    (t : CountTable) :
  pivot_table_size V index cols = Ok t →
  (∀ r c n, cell t r c = Some n →
     (0 < n)%nat ∧ n = group_size index cols (r, c) (rows V) ∧
     r ∈ row_labels t ∧ c ∈ col_labels t ∧
     isna r = false ∧ isna c = false) ∧
  (∀ r, r ∈ row_labels t → ∃ c, c ∈ col_labels t ∧ is_Some (cell t r c)) ∧
  (∀ c, c ∈ col_labels t → ∃ r, r ∈ row_labels t ∧ is_Some (cell t r c)).
Proof.
  intros (_ & _ & ->)%pivot_table_size_Ok. unfold cell, unstack. cbn.
  split; [|split].
  - intros r c n Hn.
    assert ((r, c) ∈ dom (foldl (size_step index cols) ∅ (rows V))) as Hd
      by (apply elem_of_dom; eauto).
    pose proof Hd as (ir & _ & _ & Hr & Hc)%elem_of_size_map.
    rewrite foldl_size_step_lookup, lookup_empty in Hn.
    case_decide as Hz; [done|]. injection Hn as <-. simpl.
    split; [lia|]. split; [done|]. rewrite !elem_of_map.
    split; [by exists (r, c)|]. split; [by exists (r, c)|]. done.
  - intros r ([r' c] & -> & Hd)%elem_of_map. exists c. split.
    + apply elem_of_map. by exists (r', c).
    + by apply elem_of_dom.
  - intros c ([r c'] & -> & Hd)%elem_of_map. exists r. split.
    + apply elem_of_map. by exists (r, c').
    + by apply elem_of_dom.
Qed.

Lemma pivot_table_size_cells_witness :
  pivot_table_size sample "Risk Factor" "Correlation"
  = Ok (unstack (foldl (size_step "Risk Factor" "Correlation") ∅
                   (rows sample))) ∧
  (∀ r, r ∈ row_labels
              (unstack (foldl (size_step "Risk Factor" "Correlation") ∅
                          (rows sample))) →
        ∃ c, c ∈ col_labels
                   (unstack (foldl (size_step "Risk Factor" "Correlation") ∅
                               (rows sample))) ∧
             is_Some (cell (unstack (foldl (size_step "Risk Factor"
                                              "Correlation") ∅ (rows sample)))
                        r c)).
Proof.
  assert (pivot_table_size sample "Risk Factor" "Correlation"
          = Ok (unstack (foldl (size_step "Risk Factor" "Correlation") ∅
                           (rows sample)))) as Ht by vm_refl.
  split; [exact Ht|].
  exact (proj1 (proj2 (pivot_table_size_cells sample "Risk Factor"
                         "Correlation" _ Ht))).
Defined.

(** X8. In [_1.py] the heatmap cannot fail once [scenario_data] exists:
    [dropna] has checked both columns, so the pivot returns a table, whose
    cells add up to the number of rows of [scenario_data], the rows of the
    dataset that have a risk factor and a correlation, of any component. *)
Theorem script_heatmap_defined (data scenario : DataFrame) :
  dropna data (Some ["Risk Factor"; "Correlation"]) = Ok scenario →
  rows scenario = filter (keyed "Risk Factor" "Correlation") (rows data) ∧
  ∃ t, pivot_table_size scenario "Risk Factor" "Correlation" = Ok t ∧
       cell_total t = length (rows scenario).
Proof.
  intros Hdrop.
  assert (["Risk Factor"; "Correlation"] ⊆ columns data) as Hcols.
  { intros c Hc. destruct (decide (c ∈ columns data)) as [|Hn]; [done|].
    by rewrite (dropna_Raise data _ c) in Hdrop. }
  apply dropna_Ok_inv in Hdrop as ->. cbn [rows columns]. split.
  - apply filter_ext_in. intros ir _. rewrite complete_on_spec. unfold keyed.
    split.
    + intros Hall. split; apply Hall; compute_done.
    + intros [Hr Hc] c [->|[->|[]%not_elem_of_nil]%elem_of_cons]%elem_of_cons;
        done.
  - eexists. split.
    + unfold pivot_table_size. cbn [columns rows].
      rewrite !bool_decide_eq_true_2 by (apply Hcols; compute_done). done.
    + rewrite cell_total_unstack. f_equal. apply filter_all.
      intros ir [Hc _]%list_elem_of_filter.
      pose proof (proj1 (complete_on_spec _ _) Hc) as Hall.
      split; apply Hall; compute_done.
Qed.

Lemma script_heatmap_defined_witness :
  dropna sample (Some ["Risk Factor"; "Correlation"]) = Ok sample_scenario ∧
  rows sample_scenario
    = filter (keyed "Risk Factor" "Correlation") (rows sample) ∧
  ∃ t, pivot_table_size sample_scenario "Risk Factor" "Correlation" = Ok t ∧
       cell_total t = length (rows sample_scenario).
Proof.
  assert (dropna sample (Some ["Risk Factor"; "Correlation"])
          = Ok sample_scenario) as H by vm_refl.
  split; [exact H|]. exact (script_heatmap_defined sample sample_scenario H).
Defined.


(** ** The scenario section and [main] *)

Lemma run_real_world_scenario_section h data D :
  h !! data = Some (ODataFrame D) →
  ∃ hx,
    xai_powered_analytics_dashboard.real_world_scenario_section data h
    = (match selectSection D "Real-World Scenario"
               ["Risk Factor"; "Risk Score Contribution (%)"; "Correlation"] with
       | Ok V =>
           match seed_sliders [] [] (scenario_pairs (rows V)) with
           | Ok inputs => Ok (length h + 4, inputs)
           | Raise e => Raise e
           end
       | Raise e => Raise e
       end, (h ++ hx)%list) ∧
    ∀ V, selectSection D "Real-World Scenario"
           ["Risk Factor"; "Risk Score Contribution (%)"; "Correlation"] = Ok V →
         (h ++ hx)%list !! (length h + 4)
         = Some (OFirstTable
                   (foldl (first_step "Risk Score Contribution (%)" "Risk Factor")
                      ∅ (rows V))).
Proof.
  intros Hd.
  destruct (run_select_section h data D "Real-World Scenario"
              ["Risk Factor"; "Risk Score Contribution (%)"; "Correlation"] Hd)
    as (hx & Hrun & Hview).
  unfold xai_powered_analytics_dashboard.real_world_scenario_section.
  rewrite run_bind, Hrun.
  destruct (selectSection D _ _) as [V|e] eqn:Hsel; [|by exists hx].
  destruct (Hview V eq_refl) as [Hlen HV].
  apply selectSection_Ok_inv in Hsel as (HC & HF & HVeq).
  assert (columns V = columns D) as Hcols by (by rewrite HVeq).
  assert ("Risk Factor" ∈ columns V) as HRF
    by (rewrite Hcols; apply HF; compute_done).
  assert ("Risk Score Contribution (%)" ∈ columns V) as HRS
    by (rewrite Hcols; apply HF; compute_done).
  assert (length (h ++ hx)%list = length h + 4) as Hl4
    by (rewrite length_app; lia).
  set (h1 := (h ++ hx)%list) in *.
  rewrite run_bind, (run_df_pivot_table_first _ _ V) by done.
  unfold pivot_table_first. rewrite !bool_decide_eq_true_2 by done.
  set (t := foldl _ ∅ (rows V)).
  set (h2 := (h1 ++ [OFirstTable t])%list).
  assert (h2 !! (length h + 3) = Some (ODataFrame V)) as HV2
    by (by apply lookup_old).
  rewrite !run_bind, (run_df_getitem _ _ V) by done.
  rewrite getitem_column_Ok by done.
  rewrite (run_series_tolist _ _ (column_of (rows V) "Risk Factor"))
    by apply lookup_new.
  set (h3 := (h2 ++ [OSeries (column_of (rows V) "Risk Factor")])%list).
  rewrite !run_bind, (run_df_getitem _ _ V) by (by apply lookup_old).
  rewrite getitem_column_Ok by done.
  rewrite (run_series_tolist _ _
             (column_of (rows V) "Risk Score Contribution (%)"))
    by apply lookup_new.
  rewrite run_bind. unfold lift. fold (scenario_pairs (rows V)). rewrite Hl4.
  exists (hx ++ [OFirstTable t; OSeries (column_of (rows V) "Risk Factor");
                 OSeries (column_of (rows V) "Risk Score Contribution (%)")])%list.
  assert (((h3 ++ [OSeries (column_of (rows V) "Risk Score Contribution (%)")])
           = h ++ hx ++ [OFirstTable t;
                         OSeries (column_of (rows V) "Risk Factor");
                         OSeries (column_of (rows V)
                                    "Risk Score Contribution (%)")])%list)
    as Hheap.
  { unfold h3, h2, h1. by rewrite <-!app_assoc. }
  split.
  - destruct (seed_sliders [] [] (scenario_pairs (rows V))); by rewrite Hheap.
  - intros ? [= <-]. rewrite app_assoc. fold h1.
    rewrite lookup_app_r by lia.
    by replace (length h + 4 - length h1) with 0 by lia.
Qed.

(** X9. Once the scenario view exists the pivot of the heatmap cannot
    raise: [dropna] has checked the two columns the pivot uses and no row
    of the view lacks them.  The table holds, for each risk factor of the
    view and for no other key, the contribution of the first row with that
    factor. *)
Theorem scenario_table_defined (D V : DataFrame) :
  selectSection D "Real-World Scenario"
    ["Risk Factor"; "Risk Score Contribution (%)"; "Correlation"] = Ok V →
  ∃ t : gmap value value,
    pivot_table_first V "Risk Score Contribution (%)" "Risk Factor" = Ok t ∧
    (∀ k, t !! k
          = first_bearing "Risk Factor" "Risk Score Contribution (%)" k (rows V)) ∧
    (∀ k, is_Some (t !! k) ↔ ∃ ir, ir ∈ rows V ∧ field ir.2 "Risk Factor" = k).
Proof.
  intros Hsel.
  assert (∀ ir, ir ∈ rows V →
            isna (field ir.2 "Risk Factor") = false ∧
            isna (field ir.2 "Risk Score Contribution (%)") = false) as Hview.
  { apply selectSection_Ok_inv in Hsel as (_ & _ & ->). cbn [rows].
    intros ir (_ & _ & Hall)%elem_of_section_rows.
    split; apply Hall; compute_done. }
  assert ("Risk Factor" ∈ columns V ∧
          "Risk Score Contribution (%)" ∈ columns V) as [HRF HRS].
  { apply selectSection_Ok_inv in Hsel as (_ & HF & ->). cbn [columns].
    split; apply HF; compute_done. }
  assert (∀ k, foldl (first_step "Risk Score Contribution (%)" "Risk Factor")
                 ∅ (rows V) !! k
               = first_bearing "Risk Factor" "Risk Score Contribution (%)" k
                   (rows V)) as Hlookup.
  { intros k. rewrite foldl_first_step_lookup, lookup_empty.
    by apply first_valued_bearing. }
  eexists. split; [|split; [exact Hlookup|]].
  - unfold pivot_table_first. by rewrite !bool_decide_eq_true_2 by done.
  - intros k. rewrite Hlookup. unfold first_bearing.
    rewrite fmap_is_Some, head_is_Some. split.
    + intros Hne. destruct (filter _ (rows V)) as [|ir ?] eqn:Hf; [done|].
      assert (ir ∈ filter (λ ir : nat * record, field ir.2 "Risk Factor" = k)
                     (rows V)) as [? ?]%list_elem_of_filter
        by (rewrite Hf; left).
      eauto.
    + intros (ir & Hir & Hk) Hnil.
      by eapply (filter_nil_not_elem_of _ _ ir Hnil).
Qed.

Lemma scenario_table_defined_witness :
  selectSection sample "Real-World Scenario"
    ["Risk Factor"; "Risk Score Contribution (%)"; "Correlation"]
  = Ok sample_scenario ∧
  ∃ t : gmap value value,
    pivot_table_first sample_scenario "Risk Score Contribution (%)"
      "Risk Factor" = Ok t ∧
    (∀ k, t !! k
          = first_bearing "Risk Factor" "Risk Score Contribution (%)" k
              (rows sample_scenario)) ∧
    (∀ k, is_Some (t !! k) ↔
          ∃ ir, ir ∈ rows sample_scenario ∧ field ir.2 "Risk Factor" = k).
Proof.
  assert (selectSection sample "Real-World Scenario"
            ["Risk Factor"; "Risk Score Contribution (%)"; "Correlation"]
          = Ok sample_scenario) as Hsel by vm_refl.
  split; [exact Hsel|].
  exact (scenario_table_defined sample sample_scenario Hsel).
Defined.

(** *** How far [main] gets *)

Lemma bind_status {A B} (m : py A) (k : py B) (h : heap) :
  status ((m ≫= λ _, k) h).1 = (_ ← status (m h).1; status (k (m h).2).1).
Proof. rewrite run_bind. by destruct (m h) as [[a|e] h']. Qed.

Lemma status_select_section h data D label fields :
  h !! data = Some (ODataFrame D) →
  status (select_section data label fields h).1
  = status (selectSection D label fields).
Proof.
  intros Hd.
  destruct (run_select_section h data D label fields Hd) as (hx & -> & _).
  by destruct (selectSection D label fields).
Qed.

Lemma main_status_run h data D :
  h !! data = Some (ODataFrame D) →
  (xai_powered_analytics_dashboard.main data h).1 = main_status D.
Proof.
  intros Hd.
  assert (∀ r : result unit, status r = r) as Hunit by (by intros [[]|]).
  assert (∀ A (m : py A) h0, allocates_only m →
            h0 !! data = Some (ODataFrame D) →
            (m h0).2 !! data = Some (ODataFrame D)) as Hkeep.
  { intros A m h0 Hm Hh0. exact (prefix_lookup_object _ _ _ _ (Hm h0) Hh0). }
  rewrite <-(Hunit (xai_powered_analytics_dashboard.main data h).1).
  unfold xai_powered_analytics_dashboard.main, main_status.
  rewrite bind_status.
  set (h1 := (xai_powered_analytics_dashboard.model_interpretability_section
                data h).2).
  assert (h1 !! data = Some (ODataFrame D)) as Hd1
    by (apply Hkeep; eauto with store).
  unfold xai_powered_analytics_dashboard.model_interpretability_section at 1.
  rewrite bind_mret, (status_select_section _ _ D) by done.
  destruct (selectSection D "Model Interpretability" _) as [V1|e]; [|done].
  cbn [status mbind result_bind]. rewrite bind_status.
  set (h2 := (xai_powered_analytics_dashboard.data_sources_section data h1).2).
  assert (h2 !! data = Some (ODataFrame D)) as Hd2
    by (apply Hkeep; eauto with store).
  destruct (run_data_sources_section h1 data D Hd1) as (hx2 & -> & _).
  cbn [fst].
  destruct (selectSection D "Data Sources" _) as [V2|e]; [|done].
  cbn [status mbind result_bind]. rewrite bind_status.
  set (h3 := (xai_powered_analytics_dashboard.key_metrics_section data h2).2).
  assert (h3 !! data = Some (ODataFrame D)) as Hd3
    by (apply Hkeep; eauto with store).
  unfold xai_powered_analytics_dashboard.key_metrics_section at 1.
  rewrite bind_mret, (status_select_section _ _ D) by done.
  destruct (selectSection D "Key Metrics" _) as [V3|e]; [|done].
  cbn [status mbind result_bind]. rewrite bind_status.
  destruct (run_real_world_scenario_section h3 data D Hd3) as (hx4 & -> & _).
  cbn [fst snd].
  destruct (selectSection D "Real-World Scenario" _) as [V4|e]; [|done].
  cbn [mbind result_bind].
  by destruct (seed_sliders [] [] (scenario_pairs (rows V4))).
Qed.

Lemma selectSection_only_KeyError D label fields e :
  selectSection D label fields = Raise e → ∃ keys, e = KeyError keys.
Proof.
  unfold selectSection, getitem_column, dropna.
  case_bool_decide; cbn [mbind result_bind]; [|intros [= <-]; eauto].
  case_bool_decide; [done|]. intros [= <-]. eauto.
Qed.

(** X11. A table that lacks one of the twelve columns cannot take [main]
    to its end: the selection of one of the four sections raises
    [KeyError] on it, and [main] stops there unless an earlier step has
    stopped it already. *)
Theorem main_needs_columns (h : heap) (data : ref) (D : DataFrame) (c : string) :
  h !! data = Some (ODataFrame D) →
  c ∈ dashboard_columns → c ∉ columns D →
  (xai_powered_analytics_dashboard.main data h).1 ≠ Ok () ∧
  ∃ L F keys, (L, F) ∈ dashboard_sections ∧
              selectSection D L F = Raise (KeyError keys).
Proof.
  intros Hd Hc Hn. rewrite (main_status_run h data D Hd). unfold main_status.
  destruct (selectSection D "Model Interpretability" _) as [V1|e] eqn:H1;
    [|destruct (selectSection_only_KeyError _ _ _ _ H1) as [keys ->];
      split; [done|]; eexists _, _, keys; split; [|exact H1]; compute_done].
  destruct (selectSection D "Data Sources" _) as [V2|e] eqn:H2;
    [|destruct (selectSection_only_KeyError _ _ _ _ H2) as [keys ->];
      split; [done|]; eexists _, _, keys; split; [|exact H2]; compute_done].
  destruct (selectSection D "Key Metrics" _) as [V3|e] eqn:H3;
    [|destruct (selectSection_only_KeyError _ _ _ _ H3) as [keys ->];
      split; [done|]; eexists _, _, keys; split; [|exact H3]; compute_done].
  destruct (selectSection D "Real-World Scenario" _) as [V4|e] eqn:H4;
    [|destruct (selectSection_only_KeyError _ _ _ _ H4) as [keys ->];
      split; [done|]; eexists _, _, keys; split; [|exact H4]; compute_done].
  exfalso. apply Hn.
  apply selectSection_Ok_inv in H1 as (HC & HF1 & _).
  apply selectSection_Ok_inv in H2 as (_ & HF2 & _).
  apply selectSection_Ok_inv in H3 as (_ & HF3 & _).
  apply selectSection_Ok_inv in H4 as (_ & HF4 & _).
  unfold dashboard_columns in Hc.
  repeat (apply elem_of_cons in Hc as [->|Hc];
          [first [exact HC | apply HF1; compute_done | apply HF2; compute_done
                 | apply HF3; compute_done | apply HF4; compute_done]|]).
  by apply not_elem_of_nil in Hc.
Qed.

Lemma main_needs_columns_witness :
  [ODataFrame metrics_only] !! 0 = Some (ODataFrame metrics_only) ∧
  ("Source" ∈ dashboard_columns) ∧ ("Source" ∉ columns metrics_only) ∧
  (xai_powered_analytics_dashboard.main 0 [ODataFrame metrics_only]).1 ≠ Ok () ∧
  ∃ L F keys, (L, F) ∈ dashboard_sections ∧
              selectSection metrics_only L F = Raise (KeyError keys).
Proof.
  assert ("Source" ∈ dashboard_columns) as Hc by compute_done.
  assert ("Source" ∉ columns metrics_only) as Hn by compute_done.
  split; [reflexivity|]. split; [exact Hc|]. split; [exact Hn|].
  exact (main_needs_columns [ODataFrame metrics_only] 0 metrics_only "Source"
           eq_refl Hc Hn).
Defined.

(** X12. No missing value reaches the pie chart: every label and every
    size that the Data Sources section hands over is present, and comes
    from a record of the dataset that carries the label "Data Sources". *)
Theorem pie_inputs_present (h h' : heap) (data labels sizes : ref) (n : nat)
    (D : DataFrame) :
  h !! data = Some (ODataFrame D) →
  xai_powered_analytics_dashboard.data_sources_section data h
    = (Ok (labels, sizes, n), h') →
  ∃ ls ss : Series value,
    h' !! labels = Some (OSeries ls) ∧ h' !! sizes = Some (OSeries ss) ∧
    (∀ iv, iv ∈ ls → isna iv.2 = false ∧
       ∃ ir, ir ∈ rows D ∧ in_section "Data Sources" ir.2 ∧
             iv = (ir.1, field ir.2 "Source")) ∧
    (∀ iv, iv ∈ ss → isna iv.2 = false ∧
       ∃ ir, ir ∈ rows D ∧ in_section "Data Sources" ir.2 ∧
             iv = (ir.1, field ir.2 "Percentage Contribution (%)")).
Proof.
  intros Hd Hrun.
  destruct (run_data_sources_section h data D Hd) as (hx & Hrun' & Hview).
  rewrite Hrun in Hrun'.
  destruct (selectSection D _ _) as [V|e] eqn:Hsel; [|done].
  injection Hrun' as -> -> -> ->. destruct (Hview V eq_refl) as [Hls Hss].
  apply selectSection_Ok_inv in Hsel as (_ & _ & ->). cbn [rows] in *.
  eexists _, _. split; [exact Hls|]. split; [exact Hss|].
  split; intros iv (ir & -> & Hir)%list_elem_of_fmap;
    apply elem_of_section_rows in Hir as (Hin & HL & Hall); cbn [snd];
    (split; [apply Hall; compute_done | by exists ir]).
Qed.

Lemma pie_inputs_present_witness :
  [ODataFrame sample] !! 0 = Some (ODataFrame sample) ∧
  ∃ ls ss : Series value,
    [ODataFrame sample; OSeries (column_of sample_rows "Component");
     OMask (series_eq (column_of sample_rows "Component") "Data Sources");
     ODataFrame (mkDataFrame sample_columns (sample_at [1; 2]));
     ODataFrame (mkDataFrame sample_columns (sample_at [1; 2]));
     OSeries (column_of (sample_at [1; 2]) "Source");
     OSeries (column_of (sample_at [1; 2]) "Percentage Contribution (%)")]
      !! 5 = Some (OSeries ls) ∧
    [ODataFrame sample; OSeries (column_of sample_rows "Component");
     OMask (series_eq (column_of sample_rows "Component") "Data Sources");
     ODataFrame (mkDataFrame sample_columns (sample_at [1; 2]));
     ODataFrame (mkDataFrame sample_columns (sample_at [1; 2]));
     OSeries (column_of (sample_at [1; 2]) "Source");
     OSeries (column_of (sample_at [1; 2]) "Percentage Contribution (%)")]
      !! 6 = Some (OSeries ss) ∧
    (∀ iv, iv ∈ ls → isna iv.2 = false ∧
       ∃ ir, ir ∈ rows sample ∧ in_section "Data Sources" ir.2 ∧
             iv = (ir.1, field ir.2 "Source")) ∧
    (∀ iv, iv ∈ ss → isna iv.2 = false ∧
       ∃ ir, ir ∈ rows sample ∧ in_section "Data Sources" ir.2 ∧
             iv = (ir.1, field ir.2 "Percentage Contribution (%)")).
Proof.
  split; [reflexivity|].
  apply (pie_inputs_present [ODataFrame sample] _ 0 5 6 2 sample).
  - reflexivity.
  - vm_refl.
Defined.


(** ** The script [_1.py], step by step *)

Lemma dropna_None df : dropna df None = dropna df (Some (columns df)).
Proof. done. Qed.

Lemma bind_ext_on {A B} (m : py A) (f g : A → py B) (h : heap) :
  (∀ a h', m h = (Ok a, h') → f a h' = g a h') → (m ≫= f) h = (m ≫= g) h.
Proof.
  intros Hfg. rewrite !run_bind. destruct (m h) as [[a|e] h']; [|done].
  by apply Hfg.
Qed.

Lemma run_source_data h data D :
  h !! data = Some (ODataFrame D) →
  script_1.source_data data h
  = select_section data "Data Sources" (columns D) h.
Proof.
  intros Hd. unfold script_1.source_data, select_section.
  apply bind_ext_on. intros component h1 H1.
  rewrite (run_df_getitem _ _ D) in H1 by done.
  destruct (getitem_column D "Component") as [comp|e]; [|done].
  injection H1 as <- <-.
  apply bind_ext_on. intros mask h2 H2.
  rewrite (run_series_eq_label _ _ comp) in H2 by apply lookup_new.
  injection H2 as <- <-.
  apply bind_ext_on. intros selected h3 H3.
  rewrite (run_df_getitem_bool _ _ D _ (series_eq comp "Data Sources")) in H3;
    [|by do 2 apply lookup_old|by apply lookup_new].
  injection H3 as <- <-.
  by rewrite !(run_df_dropna _ _ _ _ (lookup_new _ _)), dropna_None.
Qed.

(** X13. [source_data] of [_1.py], made with a bare [dropna()], is the
    section view of "Data Sources" that requires every column of the
    table: no row of it has a missing value anywhere, and it fails only
    when the table has no [Component] column. *)
Theorem script_source_data_view (h : heap) (data : ref) (D : DataFrame) :
  h !! data = Some (ODataFrame D) →
  frame_of (script_1.source_data data) h
    = selectSection D "Data Sources" (columns D) ∧
  (∀ V, frame_of (script_1.source_data data) h = Ok V →
        ∀ ir c, ir ∈ rows V → c ∈ columns D → isna (field ir.2 c) = false) ∧
  ("Component" ∈ columns D → is_Ok (frame_of (script_1.source_data data) h)).
Proof.
  intros Hd.
  assert (frame_of (script_1.source_data data) h
          = selectSection D "Data Sources" (columns D)) as Heq.
  { unfold frame_of. rewrite (run_source_data h data D Hd).
    by apply frame_of_select_section. }
  split; [done|]. rewrite Heq. split.
  - intros V (_ & _ & ->)%selectSection_Ok_inv ir c Hir Hc.
    apply elem_of_section_rows in Hir as (_ & _ & Hall). by apply Hall.
  - intros HC. eexists. by apply selectSection_Ok.
Qed.

Lemma script_source_data_view_witness :
  [ODataFrame script_table] !! 0 = Some (ODataFrame script_table) ∧
  frame_of (script_1.source_data 0) [ODataFrame script_table]
    = selectSection script_table "Data Sources" (columns script_table).
Proof.
  split; [reflexivity|].
  exact (proj1 (script_source_data_view [ODataFrame script_table] 0
                  script_table eq_refl)).
Defined.

(** X14. [model_data] of [_1.py] is filtered by label only: it holds every
    record of the dataset that carries the label "Model Interpretability",
    also those that lack the fields the bar chart draws. *)
Theorem script_model_data_rows (h : heap) (data : ref) (D V : DataFrame) :
  h !! data = Some (ODataFrame D) →
  frame_of (script_1.model_data data) h = Ok V →
  columns V = columns D ∧
  rows V = filter (λ ir : nat * record,
                     in_section "Model Interpretability" ir.2) (rows D).
Proof.
  intros Hd. rewrite (script_model_data_view h data D Hd).
  intros (_ & _ & ->)%selectSection_Ok_inv. split; [done|]. cbn [rows].
  unfold section_rows. by rewrite filter_all.
Qed.

Lemma script_model_data_rows_witness :
  [ODataFrame sample] !! 0 = Some (ODataFrame sample) ∧
  frame_of (script_1.model_data 0) [ODataFrame sample]
    = Ok (mkDataFrame sample_columns (sample_at [0])) ∧
  columns (mkDataFrame sample_columns (sample_at [0])) = columns sample ∧
  rows (mkDataFrame sample_columns (sample_at [0]))
    = filter (λ ir : nat * record,
                in_section "Model Interpretability" ir.2) (rows sample).
Proof.
  assert (frame_of (script_1.model_data 0) [ODataFrame sample]
          = Ok (mkDataFrame sample_columns (sample_at [0]))) as H by vm_refl.
  split; [reflexivity|]. split; [exact H|].
  exact (script_model_data_rows [ODataFrame sample] 0 sample _ eq_refl H).
Defined.

(** *** The node labels of the Sankey diagram *)

Lemma drop_duplicates_seen_ext (s1 s2 l : list value) :
  (∀ x, x ∈ s1 ↔ x ∈ s2) → drop_duplicates s1 l = drop_duplicates s2 l.
Proof.
  revert s1 s2. induction l as [|x l IH]; intros s1 s2 Hs; [done|]. simpl.
  rewrite (bool_decide_ext _ _ (Hs x)). case_bool_decide.
  - by apply IH.
  - f_equal. apply IH. intros y. rewrite !elem_of_cons, Hs. done.
Qed.

Lemma elem_of_drop_duplicates (seen l : list value) (x : value) :
  x ∈ drop_duplicates seen l ↔ x ∈ l ∧ x ∉ seen.
Proof.
  revert seen. induction l as [|y l IH]; intros seen; simpl.
  { split; [by intros ?%not_elem_of_nil | by intros [?%not_elem_of_nil _]]. }
  case_bool_decide as Hy.
  - rewrite IH, elem_of_cons. split; [tauto|]. intros [[->|?] ?]; tauto.
  - rewrite !elem_of_cons, IH, elem_of_cons.
    destruct (decide (x = y)) as [->|]; tauto.
Qed.

Lemma NoDup_drop_duplicates (seen l : list value) :
  NoDup (drop_duplicates seen l).
Proof.
  revert seen. induction l as [|y l IH]; intros seen; simpl; [constructor|].
  case_bool_decide; [done|]. constructor; [|done].
  rewrite elem_of_drop_duplicates, elem_of_cons. tauto.
Qed.

Lemma drop_duplicates_sublist (seen l : list value) :
  drop_duplicates seen l `sublist_of` l.
Proof.
  revert seen. induction l as [|y l IH]; intros seen; simpl; [done|].
  case_bool_decide; [by apply sublist_cons | by apply sublist_skip].
Qed.

Lemma drop_duplicates_app (seen l1 l2 : list value) :
  drop_duplicates seen (l1 ++ l2)
  = (drop_duplicates seen l1 ++ drop_duplicates (l1 ++ seen) l2)%list.
Proof.
  revert seen. induction l1 as [|x l1 IH]; intros seen; [done|]. simpl.
  case_bool_decide as Hx.
  - rewrite IH. f_equal. apply drop_duplicates_seen_ext. intros y.
    rewrite elem_of_cons, !elem_of_app. split; [tauto|].
    intros [->|?]; tauto.
  - rewrite IH. simpl. do 2 f_equal. apply drop_duplicates_seen_ext.
    intros y. rewrite !elem_of_cons, !elem_of_app, elem_of_cons. tauto.
Qed.

Lemma run_series_drop_duplicates_tolist h s col :
  h !! s = Some (OSeries col) →
  series_drop_duplicates_tolist s h = (Ok (drop_duplicates [] (col.*2)), h).
Proof.
  intros Hl. unfold series_drop_duplicates_tolist.
  by rewrite run_bind, (run_series_at _ _ col).
Qed.

(** X15. The node labels of the Sankey diagram are the sources of
    [source_data] without repetition, in the order of their first
    occurrence: the list has no duplicate, it holds exactly the values of
    the [Source] column, and a source first met after the cells [l1] sits
    right after the labels that [l1] gives. *)
Theorem sankey_labels_first_occurrence (h : heap) (sd : ref) (SD : DataFrame) :
  h !! sd = Some (ODataFrame SD) → "Source" ∈ columns SD →
  ∃ (labels : list value) (hx : heap),
    script_1.sankey_labels sd h = (Ok labels, (h ++ hx)%list) ∧
    NoDup labels ∧
    (∀ x, x ∈ labels ↔ ∃ ir, ir ∈ rows SD ∧ field ir.2 "Source" = x) ∧
    labels `sublist_of` (column_of (rows SD) "Source").*2 ∧
    (∀ l1 x l2, (column_of (rows SD) "Source").*2 = (l1 ++ x :: l2)%list →
                x ∉ l1 →
                labels = (drop_duplicates [] l1
                          ++ x :: drop_duplicates (x :: l1) l2)%list).
Proof.
  intros Hsd HS. eexists _, [_]. split; [|split; [|split; [|split]]].
  - unfold script_1.sankey_labels.
    rewrite run_bind, (run_df_getitem _ _ SD), getitem_column_Ok by done.
    by rewrite (run_series_drop_duplicates_tolist _ _ _ (lookup_new _ _)).
  - apply NoDup_drop_duplicates.
  - intros x. rewrite elem_of_drop_duplicates. unfold column_of.
    rewrite <-list_fmap_compose, list_elem_of_fmap. split.
    + intros [(ir & -> & Hir) _]. by exists ir.
    + intros (ir & Hir & <-). split; [by exists ir|]. apply not_elem_of_nil.
  - apply drop_duplicates_sublist.
  - intros l1 x l2 -> Hx. rewrite drop_duplicates_app. f_equal. simpl.
    by rewrite app_nil_r, bool_decide_eq_false_2.
Qed.

Lemma sankey_labels_first_occurrence_witness :
  [ODataFrame sample] !! 0 = Some (ODataFrame sample) ∧
  ("Source" ∈ columns sample) ∧
  ∃ (labels : list value) (hx : heap),
    script_1.sankey_labels 0 [ODataFrame sample]
      = (Ok labels, ([ODataFrame sample] ++ hx)%list) ∧
    NoDup labels ∧
    (∀ x, x ∈ labels ↔ ∃ ir, ir ∈ rows sample ∧ field ir.2 "Source" = x) ∧
    labels `sublist_of` (column_of (rows sample) "Source").*2 ∧
    (∀ l1 x l2, (column_of (rows sample) "Source").*2 = (l1 ++ x :: l2)%list →
                x ∉ l1 →
                labels = (drop_duplicates [] l1
                          ++ x :: drop_duplicates (x :: l1) l2)%list).
Proof.
  assert ("Source" ∈ columns sample) as HS by compute_done.
  split; [reflexivity|]. split; [exact HS|].
  exact (sankey_labels_first_occurrence [ODataFrame sample] 0 sample eq_refl HS).
Defined.


(** *** How far the script gets *)

Lemma run_model_data h data D :
  h !! data = Some (ODataFrame D) →
  ∃ hx, script_1.model_data data h
        = (match getitem_column D "Component" with
           | Ok _ => Ok (length h + 2)
           | Raise e => Raise e
           end, (h ++ hx)%list) ∧
        ∀ comp, getitem_column D "Component" = Ok comp →
          (h ++ hx)%list !! (length h + 2)
          = Some (ODataFrame
                    (getitem_mask D (series_eq comp "Model Interpretability"))).
Proof.
  intros Hd. unfold script_1.model_data.
  rewrite run_bind, (run_df_getitem _ _ D) by done.
  destruct (getitem_column D "Component") as [comp|e].
  2:{ exists []. by rewrite app_nil_r. }
  rewrite run_bind, (run_series_eq_label _ _ comp) by apply lookup_new.
  rewrite (run_df_getitem_bool _ _ D _ (series_eq comp "Model Interpretability"));
    [|by do 2 apply lookup_old|by apply lookup_new].
  eexists [_; _; _]. split.
  - rewrite !length_app. simpl. f_equal.
    + f_equal. lia.
    + by rewrite <-!app_assoc.
  - intros ? [= <-]. rewrite lookup_app_r by lia.
    by replace (length h + 2 - length h) with 2 by lia.
Qed.

Lemma getitem_column_is_Ok D c s :
  getitem_column D c = Ok s → c ∈ columns D.
Proof. unfold getitem_column. by case_bool_decide. Qed.

Lemma field_delete_ne (r : record) (key c : string) :
  c ≠ key → field (delete key r) c = field r c.
Proof. intros Hne. unfold field. by rewrite lookup_delete_ne. Qed.

(** The series of a metrics chart, on a table that has the charted column
    and the [Model] column. *)
Lemma set_index_getitem M c :
  "Model" ∈ columns M → c ∈ columns M → c ≠ "Model" →
  (indexed ← set_index M "Model"; indexed_getitem indexed c)
  = Ok ((λ ir : nat * record, (field ir.2 "Model", field ir.2 c)) <$> rows M).
Proof.
  intros HM Hc Hne. unfold set_index. rewrite bool_decide_eq_true_2 by done.
  cbn [mbind result_bind]. unfold indexed_getitem. cbn [icolumns irows].
  rewrite bool_decide_eq_true_2 by (by apply list_elem_of_filter).
  f_equal. rewrite <-list_fmap_compose. apply list_fmap_ext.
  intros i ir _. cbn. by rewrite field_delete_ne.
Qed.

Lemma set_index_getitem_Raise M c :
  "Model" ∉ columns M →
  (indexed ← set_index M "Model"; indexed_getitem indexed c)
  = Raise (KeyError ["Model"]).
Proof. intros HM. unfold set_index. by rewrite bool_decide_eq_false_2. Qed.

Lemma run_accuracy_series h md M :
  h !! md = Some (ODataFrame M) →
  script_1.accuracy_series md h
  = (indexed ← set_index M "Model"; indexed_getitem indexed "Accuracy", h).
Proof.
  intros Hmd. unfold script_1.accuracy_series.
  by rewrite run_bind, (run_frame_at _ _ M).
Qed.

Lemma run_compliance_series h md M :
  h !! md = Some (ODataFrame M) →
  script_1.compliance_series md h
  = (indexed ← set_index M "Model"; indexed_getitem indexed "Compliance Rate",
     h).
Proof.
  intros Hmd. unfold script_1.compliance_series.
  by rewrite run_bind, (run_frame_at _ _ M).
Qed.

Lemma script_status_run h data D :
  h !! data = Some (ODataFrame D) →
  (script_1.script_with_charts data h).1 = script_status D.
Proof.
  intros Hd. unfold script_1.script_with_charts, script_status.
  (* model_data and the variables of its chart *)
  rewrite run_bind.
  destruct (run_model_data h data D Hd) as (hx1 & -> & Hfeatures).
  destruct (getitem_column D "Component") as [comp|e] eqn:HC; [|done].
  specialize (Hfeatures comp eq_refl).
  apply getitem_column_is_Ok in HC. cbn [mbind result_bind].
  assert ((h ++ hx1)%list !! data = Some (ODataFrame D)) as Hd1
    by (by apply lookup_old).
  rewrite run_bind. unfold script_1.feature_chart at 1.
  rewrite run_bind, (run_frame_at _ _ _ Hfeatures). unfold lift.
  change (sns_barplot_variables (getitem_mask D _) "SHAP Value" "Feature")
    with (sns_barplot_variables D "SHAP Value" "Feature").
  destruct (sns_barplot_variables D "SHAP Value" "Feature") as [[]|e]; [|done].
  cbn [mbind result_bind].
  (* source_data *)
  rewrite run_bind, (run_source_data _ _ D Hd1).
  destruct (run_select_section _ data D "Data Sources" (columns D) Hd1)
    as (hx2 & -> & Hview).
  rewrite (selectSection_Ok D "Data Sources" (columns D)) in * by done.
  destruct (Hview _ eq_refl) as [_ HV]. clear Hview.
  set (V := mkDataFrame (columns D) _) in *.
  set (h2 := ((h ++ hx1) ++ hx2)%list) in *.
  assert (h2 !! data = Some (ODataFrame D)) as Hd2 by (by apply lookup_old).
  (* sankey_labels *)
  rewrite run_bind. unfold script_1.sankey_labels at 1.
  rewrite run_bind, (run_df_getitem _ _ V) by done.
  destruct (decide ("Source" ∈ columns D)) as [HS|HS]; cycle 1.
  { by rewrite (getitem_column_Raise V "Source"),
      (getitem_column_Raise D "Source") by done. }
  rewrite (getitem_column_Ok V "Source"), (getitem_column_Ok D "Source")
    by done.
  rewrite (run_series_drop_duplicates_tolist _ _ _ (lookup_new _ _)).
  cbn [mbind result_bind].
  set (h3 := (h2 ++ _)%list).
  assert (h3 !! data = Some (ODataFrame D)) as Hd3 by (by apply lookup_old).
  (* metrics_data and its two series *)
  rewrite run_bind. unfold script_1.metrics_data at 1.
  rewrite (run_df_dropna _ _ D) by done.
  destruct (dropna D (Some ["Accuracy"; "Compliance Rate"])) as [M|e] eqn:HM;
    [|done].
  cbn [mbind result_bind].
  assert (["Accuracy"; "Compliance Rate"] ⊆ columns D) as HMcols.
  { intros c Hc. destruct (decide (c ∈ columns D)) as [|Hn]; [done|].
    by rewrite (dropna_Raise D _ c) in HM. }
  apply dropna_Ok_inv in HM.
  assert (columns M = columns D) as HMc by (by rewrite HM).
  set (h4 := (h3 ++ _)%list).
  assert (h4 !! data = Some (ODataFrame D)) as Hd4 by (by apply lookup_old).
  assert (h4 !! length h3 = Some (ODataFrame M)) as Hmd by apply lookup_new.
  rewrite run_bind, (run_accuracy_series _ _ M Hmd).
  destruct (decide ("Model" ∈ columns D)) as [HMo|HMo]; cycle 1.
  { rewrite set_index_getitem_Raise by (by rewrite HMc).
    by rewrite (getitem_column_Raise D "Model"). }
  rewrite set_index_getitem
    by (rewrite ?HMc; first [done | apply HMcols; compute_done]).
  rewrite run_bind, (run_compliance_series _ _ M Hmd).
  rewrite set_index_getitem
    by (rewrite ?HMc; first [done | apply HMcols; compute_done]).
  rewrite (getitem_column_Ok D "Model") by done. cbn [mbind result_bind].
  (* scenario_data and the heatmap *)
  rewrite run_bind. unfold script_1.scenario_data at 1.
  rewrite (run_df_dropna _ _ D) by done.
  destruct (dropna D (Some ["Risk Factor"; "Correlation"])) as [SC|e] eqn:HSC;
    [|done].
  cbn [mbind result_bind].
  assert (["Risk Factor"; "Correlation"] ⊆ columns D) as Hcols.
  { intros c Hc. destruct (decide (c ∈ columns D)) as [|Hn]; [done|].
    by rewrite (dropna_Raise D _ c) in HSC. }
  apply dropna_Ok_inv in HSC as ->.
  rewrite run_bind. unfold script_1.heatmap_table at 1.
  rewrite (run_df_pivot_table_size _ _ _ _ _ (lookup_new _ _)).
  unfold pivot_table_size. cbn [columns].
  rewrite !bool_decide_eq_true_2 by (apply Hcols; compute_done).
  (* the three sliders *)
  destruct script_sliders as (Hs1 & Hs2 & Hs3).
  rewrite !run_bind. unfold lift. by rewrite Hs1, Hs2, Hs3.
Qed.

Lemma script_status_Ok D :
  script_status D = Ok () → script_columns ⊆ columns D.
Proof.
  unfold script_status.
  destruct (getitem_column D "Component") as [?|?] eqn:HC; [|done].
  apply getitem_column_is_Ok in HC. cbn [mbind result_bind].
  unfold sns_barplot_variables. case_bool_decide as Hvars; [|done].
  destruct Hvars as [HSV HFe]. cbn [mbind result_bind].
  destruct (getitem_column D "Source") as [?|?] eqn:HS; [|done].
  apply getitem_column_is_Ok in HS. cbn [mbind result_bind].
  destruct (dropna D (Some ["Accuracy"; "Compliance Rate"])) as [?|?] eqn:HM;
    [|done].
  cbn [mbind result_bind].
  destruct (getitem_column D "Model") as [?|?] eqn:HMo; [|done].
  apply getitem_column_is_Ok in HMo. cbn [mbind result_bind].
  destruct (dropna D (Some ["Risk Factor"; "Correlation"])) as [?|?] eqn:HR;
    [|done].
  intros _.
  assert (["Accuracy"; "Compliance Rate"] ⊆ columns D) as HMcols.
  { intros c Hc. destruct (decide (c ∈ columns D)) as [|Hn]; [done|].
    by rewrite (dropna_Raise D _ c) in HM. }
  assert (["Risk Factor"; "Correlation"] ⊆ columns D) as HRcols.
  { intros c Hc. destruct (decide (c ∈ columns D)) as [|Hn]; [done|].
    by rewrite (dropna_Raise D _ c) in HR. }
  intros c Hc. unfold script_columns in Hc.
  repeat (apply elem_of_cons in Hc as [->|Hc];
          [first [ done | apply HMcols; compute_done
                 | apply HRcols; compute_done ]|]).
  by apply not_elem_of_nil in Hc.
Qed.

(** X16. [_1.py] cannot run to its end on a table that lacks one of the
    nine columns it names: the two variables of the first bar chart, which
    [sns.barplot] looks up, and the seven columns of its pandas calls. *)
Theorem script_needs_columns (h : heap) (data : ref) (D : DataFrame) (c : string) :
  h !! data = Some (ODataFrame D) →
  c ∈ script_columns → c ∉ columns D →
  (script_1.script_with_charts data h).1 ≠ Ok ().
Proof.
  intros Hd Hc Hn. rewrite (script_status_run h data D Hd). intros HOk.
  by apply Hn, (script_status_Ok D HOk).
Qed.

Lemma script_needs_columns_witness :
  [ODataFrame sample] !! 0 = Some (ODataFrame sample) ∧
  ("Accuracy" ∈ script_columns) ∧ ("Accuracy" ∉ columns sample) ∧
  (script_1.script_with_charts 0 [ODataFrame sample]).1 ≠ Ok ().
Proof.
  assert ("Accuracy" ∈ script_columns) as Hc by compute_done.
  assert ("Accuracy" ∉ columns sample) as Hn by compute_done.
  split; [reflexivity|]. split; [exact Hc|]. split; [exact Hn|].
  exact (script_needs_columns [ODataFrame sample] 0 sample "Accuracy"
           eq_refl Hc Hn).
Defined.


(** ** The dictionary of slider values *)

Lemma dict_get_set_eq inputs f v : dict_get (dict_set inputs f v) f = Some v.
Proof.
  induction inputs as [|[k w] inputs IH]; simpl.
  - by rewrite bool_decide_eq_true_2.
  - case_bool_decide as Hk; simpl.
    + by rewrite bool_decide_eq_true_2.
    + by rewrite bool_decide_eq_false_2.
Qed.

Lemma dict_get_set_ne inputs f g v :
  f ≠ g → dict_get (dict_set inputs f v) g = dict_get inputs g.
Proof.
  intros Hne. induction inputs as [|[k w] inputs IH]; simpl.
  - by rewrite bool_decide_eq_false_2.
  - case_bool_decide as Hk; simpl.
    + subst k. by rewrite !bool_decide_eq_false_2.
    + by rewrite IH.
Qed.

Lemma dict_set_keys inputs f v :
  (dict_set inputs f v).*1
  = if bool_decide (f ∈ inputs.*1) then inputs.*1 else (inputs.*1 ++ [f])%list.
Proof.
  induction inputs as [|[k w] inputs IH]; [done|].
  cbn [dict_set]. rewrite (fmap_cons fst (k, w)). cbn [fst].
  destruct (decide (k = f)) as [->|Hk].
  - rewrite (bool_decide_eq_true_2 (f = f)) by done. rewrite fmap_cons.
    cbn [fst]. by rewrite bool_decide_eq_true_2 by left.
  - rewrite (bool_decide_eq_false_2 (k = f)) by done. rewrite fmap_cons, IH.
    cbn [fst]. destruct (decide (f ∈ inputs.*1)) as [Hin|Hin].
    + by rewrite !bool_decide_eq_true_2 by (done || by right).
    + rewrite !bool_decide_eq_false_2; [done| |done].
      intros [?|?]%elem_of_cons; congruence.
Qed.

Lemma dict_set_fresh inputs f v :
  f ∉ inputs.*1 → dict_set inputs f v = (inputs ++ [(f, v)])%list.
Proof.
  induction inputs as [|[k w] inputs IH]; intros Hf; [done|]. simpl in *.
  rewrite bool_decide_eq_false_2 by (intros ->; apply Hf; left).
  rewrite IH; [done|]. intros ?. apply Hf. by right.
Qed.

Lemma seed_sliders_Ok_inv drawn inputs factor default pairs out :
  seed_sliders drawn inputs ((factor, default) :: pairs) = Ok out →
  ∃ w, seed_slider factor default = Ok w ∧
       py_int default = Ok (slider_value w) ∧
       seed_sliders (w :: drawn) (dict_set inputs factor (slider_value w)) pairs
       = Ok out.
Proof.
  cbn [seed_sliders]. destruct (seed_slider factor default) as [w|e] eqn:Hw;
    cbn [mbind result_bind]; [|done].
  case_bool_decide; [done|]. intros Hout. exists w.
  split; [done|]. split; [by eapply seed_slider_value | done].
Qed.

Lemma seed_sliders_dict drawn inputs pairs out :
  seed_sliders drawn inputs pairs = Ok out →
  (NoDup (inputs.*1) → NoDup (out.*1)) ∧
  (∀ f, f ∈ out.*1 ↔ f ∈ inputs.*1 ∨ f ∈ pairs.*1) ∧
  (∀ f, dict_get out f
        = match last (filter (λ p : value * value, p.1 = f) pairs) with
          | Some _ => last_default pairs f
          | None => dict_get inputs f
          end) ∧
  (length out ≤ length inputs + length pairs)%nat.
Proof.
  revert drawn inputs.
  induction pairs as [|[f0 d0] pairs IH]; intros drawn inputs Hout.
  { injection Hout as <-. split; [done|]. split; [|split; [done|simpl; lia]].
    intros f. split; [by left|]. by intros [?|?%not_elem_of_nil]. }
  apply seed_sliders_Ok_inv in Hout as (w & _ & Hint & Hout).
  destruct (IH _ _ Hout) as (Hnd & Hkeys & Hget & Hlen).
  split; [|split; [|split]].
  - intros Hin. apply Hnd. rewrite dict_set_keys. case_bool_decide; [done|].
    apply NoDup_app. split; [done|]. split; [|apply NoDup_singleton].
    intros x Hx ->%list_elem_of_singleton. done.
  - intros f. rewrite Hkeys, dict_set_keys. cbn [fmap list_fmap fst].
    rewrite elem_of_cons. case_bool_decide as Hf0.
    + split; [tauto|]. intros [?|[->|?]]; tauto.
    + rewrite elem_of_app, list_elem_of_singleton. tauto.
  - intros f. rewrite Hget. unfold last_default. rewrite filter_cons. cbn [fst].
    destruct (decide (f0 = f)) as [->|Hne].
    + rewrite last_cons.
      destruct (last (filter _ pairs)) as [p|]; [done|].
      cbn [snd]. by rewrite Hint, dict_get_set_eq.
    + destruct (last (filter _ pairs)) as [p|]; [done|].
      by rewrite dict_get_set_ne.
  - etrans; [exact Hlen|]. cbn [length].
    assert (length (dict_set inputs f0 (slider_value w)) ≤ S (length inputs))%nat;
      [|lia].
    rewrite <-(length_fmap fst (dict_set _ _ _)), dict_set_keys.
    case_bool_decide; rewrite ?length_app, !length_fmap; simpl; lia.
Qed.

(** X17. When the seeding loop comes to its end, [inputs] has one entry
    per risk factor of the view, no factor twice, and a factor that occurs
    in several rows holds the integer part of the default of its last row:
    the later assignment overwrites the earlier one. *)
Theorem seed_sliders_inputs (pairs : list (value * value))
    (inputs : list (value * Z)) :
  seed_sliders [] [] pairs = Ok inputs →
  NoDup (inputs.*1) ∧
  (∀ f, f ∈ inputs.*1 ↔ f ∈ pairs.*1) ∧
  (∀ f, f ∈ pairs.*1 →
        is_Some (dict_get inputs f) ∧ dict_get inputs f = last_default pairs f) ∧
  (length inputs ≤ length pairs)%nat.
Proof.
  intros Hout.
  destruct (seed_sliders_dict [] [] pairs inputs Hout)
    as (Hnd & Hkeys & Hget & Hlen).
  split; [apply Hnd; constructor|]. split; [|split; [|exact Hlen]].
  - intros f. rewrite Hkeys. split; [|by right].
    by intros [?%not_elem_of_nil|?].
  - intros f Hf.
    assert (dict_get inputs f = last_default pairs f) as Heq.
    { rewrite Hget. unfold last_default.
      destruct (last (filter _ pairs)) as [p|] eqn:Hlast; [done|].
      apply list_elem_of_fmap in Hf as ([f' d] & -> & Hp). exfalso.
      assert ((f', d) ∈ filter (λ p : value * value, p.1 = (f', d).1) pairs)
        as Hin by (by apply list_elem_of_filter).
      apply last_None in Hlast. rewrite Hlast in Hin.
      by apply not_elem_of_nil in Hin. }
    split; [|done].
    assert (f ∈ inputs.*1) as Hin by (by apply Hkeys; right).
    clear -Hin. induction inputs as [|[k w] inputs IH]; simpl in *.
    { by apply not_elem_of_nil in Hin. }
    case_bool_decide; [by eexists|]. apply IH.
    apply elem_of_cons in Hin as [?|?]; [congruence|done].
Qed.

Lemma seed_sliders_inputs_witness :
  seed_sliders [] [] [(VStr "Debt", num 10 1); (VStr "Income", num 20 1);
                      (VStr "Debt", num 30 1)]
  = Ok [(VStr "Debt", 30%Z); (VStr "Income", 20%Z)] ∧
  NoDup ([(VStr "Debt", 30%Z); (VStr "Income", 20%Z)].*1) ∧
  (length [(VStr "Debt", 30%Z); (VStr "Income", 20%Z)] ≤ 3)%nat.
Proof.
  assert (seed_sliders [] [] [(VStr "Debt", num 10 1); (VStr "Income", num 20 1);
                              (VStr "Debt", num 30 1)]
          = Ok [(VStr "Debt", 30%Z); (VStr "Income", 20%Z)]) as H by vm_refl.
  split; [exact H|].
  pose proof (seed_sliders_inputs _ _ H) as (Hnd & _ & _ & Hlen).
  split; [exact Hnd | exact Hlen].
Defined.

Lemma seed_slider_safe label default n :
  py_int default = Ok n →
  (- MAX_SAFE_INTEGER ≤ n ≤ MAX_SAFE_INTEGER)%Z →
  seed_slider (VStr label) default
  = Ok (mkSlider label (Z.min n 0) (Z.max n 100) n).
Proof.
  intros Hint Hsafe. rewrite MAX_SAFE_INTEGER_value in Hsafe.
  unfold seed_slider. rewrite Hint. cbn [mbind result_bind]. unfold st_slider.
  rewrite MAX_SAFE_INTEGER_value.
  change (Z.min 0 100) with 0%Z. change (Z.max 0 100) with 100%Z.
  by rewrite bool_decide_eq_true_2 by lia.
Qed.

Lemma seed_sliders_fresh drawn inputs pairs :
  NoDup (pairs.*1) →
  (∀ p, p ∈ pairs →
     ∃ label n, p.1 = VStr label ∧ py_int p.2 = Ok n ∧
                (- MAX_SAFE_INTEGER ≤ n ≤ MAX_SAFE_INTEGER)%Z) →
  (∀ w, w ∈ drawn → VStr (slider_label w) ∉ pairs.*1) →
  (∀ f, f ∈ pairs.*1 → f ∉ inputs.*1) →
  ∃ added, seed_sliders drawn inputs pairs = Ok (inputs ++ added)%list ∧
         added.*1 = pairs.*1 ∧
         Forall2 (λ (p : value * value) (iv : value * Z), py_int p.2 = Ok iv.2)
           pairs added.
Proof.
  revert drawn inputs.
  induction pairs as [|[f d] pairs IH]; intros drawn inputs Hnd Hok Hdrawn Hnew.
  { exists []. rewrite app_nil_r. by repeat split. }
  rewrite fmap_cons in Hnd. cbn [fst] in Hnd.
  apply NoDup_cons in Hnd as [Hf Hnd].
  destruct (Hok (f, d)) as (label & n & Hlab & Hint & Hsafe); [left|].
  cbn [fst snd] in *. subst f.
  cbn [seed_sliders]. rewrite (seed_slider_safe label d n Hint Hsafe).
  cbn [mbind result_bind slider_value].
  rewrite bool_decide_eq_false_2; cycle 1.
  { intros Hw. apply (Hdrawn _ Hw). cbn [slider_label]. left. }
  rewrite dict_set_fresh by (apply Hnew; left).
  destruct (IH (mkSlider label (Z.min n 0) (Z.max n 100) n :: drawn)
              (inputs ++ [(VStr label, n)])%list) as (added & Hrun & Hkeys & Hall).
  - done.
  - intros p Hp. apply Hok. by right.
  - intros w [->|Hw]%elem_of_cons; [done|].
    intros Hin. apply (Hdrawn w Hw). by right.
  - intros g Hg. rewrite fmap_app, elem_of_app. intros [Hin|Hin].
    + apply (Hnew g); [by right|done].
    + apply list_elem_of_singleton in Hin. cbn [fst] in Hin. by subst g.
  - exists ((VStr label, n) :: added). rewrite Hrun, <-app_assoc.
    split; [done|]. split; [by rewrite !fmap_cons, Hkeys|].
    by constructor.
Qed.

(** X18. When the risk factors of the view are distinct strings and every
    default has an integer part that JavaScript represents exactly, every
    slider is drawn: [inputs] lists the factors in the order of the view,
    each with the integer part of its default. *)
Theorem seed_sliders_distinct (pairs : list (value * value)) :
  NoDup (pairs.*1) →
  (∀ p, p ∈ pairs →
     ∃ label n, p.1 = VStr label ∧ py_int p.2 = Ok n ∧
                (- MAX_SAFE_INTEGER ≤ n ≤ MAX_SAFE_INTEGER)%Z) →
  ∃ inputs, seed_sliders [] [] pairs = Ok inputs ∧
            inputs.*1 = pairs.*1 ∧
            Forall2 (λ (p : value * value) (iv : value * Z),
                       py_int p.2 = Ok iv.2) pairs inputs.
Proof.
  intros Hnd Hok.
  destruct (seed_sliders_fresh [] [] pairs Hnd Hok) as (added & Hrun & ? & ?).
  - by intros w ?%not_elem_of_nil.
  - intros f _. apply not_elem_of_nil.
  - by exists added.
Qed.

Lemma seed_sliders_distinct_witness :
  NoDup ((scenario_pairs (rows sample_scenario)).*1) ∧
  (∀ p, p ∈ scenario_pairs (rows sample_scenario) →
     ∃ label n, p.1 = VStr label ∧ py_int p.2 = Ok n ∧
                (- MAX_SAFE_INTEGER ≤ n ≤ MAX_SAFE_INTEGER)%Z) ∧
  ∃ inputs, seed_sliders [] [] (scenario_pairs (rows sample_scenario))
            = Ok inputs ∧
            inputs.*1 = (scenario_pairs (rows sample_scenario)).*1 ∧
            Forall2 (λ (p : value * value) (iv : value * Z),
                       py_int p.2 = Ok iv.2)
              (scenario_pairs (rows sample_scenario)) inputs.
Proof.
  assert (NoDup ((scenario_pairs (rows sample_scenario)).*1)) as Hnd
    by compute_done.
  assert (∀ p, p ∈ scenario_pairs (rows sample_scenario) →
            ∃ label n, p.1 = VStr label ∧ py_int p.2 = Ok n ∧
                       (- MAX_SAFE_INTEGER ≤ n ≤ MAX_SAFE_INTEGER)%Z) as Hok.
  { intros p Hp.
    assert (p = (VStr "Loan-to-Income Ratio", num 135 1) ∨
            p = (VStr "Payment History", num 30 1)) as [ -> | -> ].
    { revert p Hp. apply Forall_forall. compute_done. }
    - exists "Loan-to-Income Ratio", 135%Z. split; [reflexivity|].
      split; [vm_refl|]. rewrite MAX_SAFE_INTEGER_value. lia.
    - exists "Payment History", 30%Z. split; [reflexivity|].
      split; [vm_refl|]. rewrite MAX_SAFE_INTEGER_value. lia. }
  split; [exact Hnd|]. split; [exact Hok|].
  exact (seed_sliders_distinct _ Hnd Hok).
Defined.


(** ** The series of the metrics charts of [_1.py] *)

Lemma allocates_only_script_with_charts data :
  allocates_only (script_1.script_with_charts data).
Proof.
  unfold script_1.script_with_charts, script_1.model_data,
    script_1.feature_chart, script_1.source_data, script_1.sankey_labels, script_1.metrics_data,
    script_1.accuracy_series, script_1.compliance_series,
    script_1.scenario_data, script_1.heatmap_table.
  allocates.
Qed.

(** X19. Once [metrics_data] exists, the two series of the metrics charts
    depend on the [Model] column alone: with it, each series has one entry
    per row of [metrics_data], in order, pairing the model of the row with
    its accuracy or its compliance rate, neither of them missing; without
    it, the script stops with [KeyError] at the first chart. *)
Theorem script_metrics_series (h : heap) (md : ref) (D M : DataFrame) :
  h !! md = Some (ODataFrame M) →
  dropna D (Some ["Accuracy"; "Compliance Rate"]) = Ok M →
  ("Model" ∈ columns D →
     script_1.accuracy_series md h
     = (Ok ((λ ir : nat * record, (field ir.2 "Model", field ir.2 "Accuracy"))
              <$> rows M), h) ∧
     script_1.compliance_series md h
     = (Ok ((λ ir : nat * record,
               (field ir.2 "Model", field ir.2 "Compliance Rate"))
              <$> rows M), h) ∧
     ∀ ir, ir ∈ rows M →
           isna (field ir.2 "Accuracy") = false ∧
           isna (field ir.2 "Compliance Rate") = false) ∧
  ("Model" ∉ columns D →
     script_1.accuracy_series md h = (Raise (KeyError ["Model"]), h)).
Proof.
  intros Hmd HM.
  assert (["Accuracy"; "Compliance Rate"] ⊆ columns D) as Hcols.
  { intros c Hc. destruct (decide (c ∈ columns D)) as [|Hn]; [done|].
    by rewrite (dropna_Raise D _ c) in HM. }
  apply dropna_Ok_inv in HM.
  assert (columns M = columns D) as HMc by (by rewrite HM).
  rewrite (run_accuracy_series _ _ M Hmd), (run_compliance_series _ _ M Hmd).
  split.
  - intros HMo.
    rewrite !set_index_getitem
      by (rewrite ?HMc; first [done | apply Hcols; compute_done]).
    split; [done|]. split; [done|]. rewrite HM. cbn [rows].
    intros ir [Hc _]%list_elem_of_filter.
    pose proof (proj1 (complete_on_spec _ _) Hc) as Hall.
    split; apply Hall; compute_done.
  - intros HMo. by rewrite set_index_getitem_Raise by (by rewrite HMc).
Qed.

Lemma script_metrics_series_witness :
  [ODataFrame script_table] !! 0 = Some (ODataFrame script_table) ∧
  dropna script_table (Some ["Accuracy"; "Compliance Rate"]) = Ok script_table ∧
  ("Model" ∈ columns script_table) ∧
  script_1.accuracy_series 0 [ODataFrame script_table]
  = (Ok ((λ ir : nat * record, (field ir.2 "Model", field ir.2 "Accuracy"))
           <$> rows script_table), [ODataFrame script_table]).
Proof.
  assert (dropna script_table (Some ["Accuracy"; "Compliance Rate"])
          = Ok script_table) as HM by vm_refl.
  assert ("Model" ∈ columns script_table) as HMo by compute_done.
  split; [reflexivity|]. split; [exact HM|]. split; [exact HMo|].
  exact (proj1 (proj1 (script_metrics_series [ODataFrame script_table] 0
                         script_table script_table eq_refl HM) HMo)).
Defined.

(** ** Sliders that repeat *)

Lemma seed_sliders_not_drawn drawn inputs pairs out :
  seed_sliders drawn inputs pairs = Ok out →
  (∀ p w, p ∈ pairs → seed_slider p.1 p.2 = Ok w → w ∉ drawn) ∧
  (∀ p, p ∈ pairs → is_Ok (seed_slider p.1 p.2)) ∧
  (∀ i j p q w, (i < j)%nat → pairs !! i = Some p → pairs !! j = Some q →
                seed_slider p.1 p.2 = Ok w → seed_slider q.1 q.2 ≠ Ok w).
Proof.
  revert drawn inputs.
  induction pairs as [|[f0 d0] pairs IH]; intros drawn inputs Hout.
  { split; [by intros ?? ?%not_elem_of_nil|].
    split; [by intros ? ?%not_elem_of_nil|]. by intros ? ? ? ? ? _ ?. }
  cbn [seed_sliders] in Hout.
  destruct (seed_slider f0 d0) as [w0|e] eqn:Hw0; cbn [mbind result_bind] in Hout;
    [|done].
  case_bool_decide as Hnew; [done|].
  destruct (IH _ _ Hout) as (Hnot & Hall & Hpair).
  split; [|split].
  - intros p w [->|Hp]%elem_of_cons Hw.
    + cbn [fst snd] in Hw. by replace w with w0 by congruence.
    + intros Hin. apply (Hnot p w Hp Hw). by right.
  - intros p [->|Hp]%elem_of_cons; [by eexists | by apply Hall].
  - intros [|i] [|j] p q w Hij Hp Hq Hw; try lia; simpl in Hp, Hq.
    + injection Hp as <-. cbn [fst snd] in Hw.
      replace w with w0 by congruence. intros Hq0.
      apply list_elem_of_lookup_2 in Hq. apply (Hnot q w0 Hq Hq0). left.
    + apply (Hpair i j p q w); [lia|done..].
Qed.

(** X20. The seeding loop comes to its end only if no two rows of the
    view ask for the same slider: a factor that comes back with a default
    of the same integer part repeats a widget already drawn, which
    Streamlit refuses. *)
Theorem seed_sliders_no_repeat (pairs : list (value * value))
    (inputs : list (value * Z)) (i j : nat) (f d d' : value) (n : Z) :
  seed_sliders [] [] pairs = Ok inputs →
  (i < j)%nat → pairs !! i = Some (f, d) → pairs !! j = Some (f, d') →
  py_int d = Ok n → py_int d' ≠ Ok n.
Proof.
  intros Hout Hij Hi Hj Hd Hd'.
  destruct (seed_sliders_not_drawn [] [] pairs inputs Hout)
    as (_ & Hall & Hpair).
  destruct (Hall (f, d)) as [w Hw]; [by eapply list_elem_of_lookup_2|].
  apply (Hpair i j (f, d) (f, d') w Hij Hi Hj Hw).
  cbn [fst snd] in *. unfold seed_slider in *. by rewrite Hd' , <-Hd.
Qed.

Lemma seed_sliders_no_repeat_witness :
  seed_sliders [] [] [(VStr "Debt", num 10 1); (VStr "Income", num 20 1);
                      (VStr "Debt", num 30 1)]
  = Ok [(VStr "Debt", 30%Z); (VStr "Income", 20%Z)] ∧
  (0 < 2)%nat ∧
  py_int (num 10 1) = Ok 10%Z ∧ py_int (num 30 1) ≠ Ok 10%Z.
Proof.
  assert (seed_sliders [] [] [(VStr "Debt", num 10 1); (VStr "Income", num 20 1);
                              (VStr "Debt", num 30 1)]
          = Ok [(VStr "Debt", 30%Z); (VStr "Income", 20%Z)]) as H by vm_refl.
  assert (0 < 2)%nat as Hlt by lia.
  assert (py_int (num 10 1) = Ok 10%Z) as Hd by vm_refl.
  split; [exact H|]. split; [exact Hlt|]. split; [exact Hd|].
  exact (seed_sliders_no_repeat _ _ 0 2 (VStr "Debt") (num 10 1) (num 30 1)
           10 H Hlt eq_refl eq_refl Hd).
Defined.
